(** * The n8n MCP client of [app.py]: a shallow embedding and its properties

    The development follows class [MCPClient] of [src/app.py]: the message
    dictionaries, the table [message_callbacks] of waiting WebSocket calls,
    the callbacks the WebSocket thread runs ([on_open], [on_message],
    [on_error], [on_close]), [connect_websocket], [send_message] with its
    WebSocket and HTTP branches, and the named operations built on it.

    Python objects are modelled as follows.
    - A JSON value is a [json] tree (numbers are integers; the client never
      computes with them).  A [dict] with string keys is an association list
      in insertion order.
    - The message dictionaries live in a [heap] and are passed by reference,
      as Python passes them.
    - A raised exception is an [outcome]; the state reached before the raise
      is kept, as in Python.
    - Everything the client cannot decide by itself (the JSON library, the
      random uuids, the answers of the HTTP server, whether [ws.send]
      succeeds, and what the WebSocket thread does while the caller is
      blocked) is read from an [environment], indexed by a logical clock.
    - The callbacks of the WebSocket thread run between the caller's
      statements at the caller's blocking calls: starting the thread,
      [time.sleep], [ws.send] and [event.wait].
    - The callbacks run in the WebSocket thread, outside any script run of
      the page: what they assign to [st.session_state.connection_status]
      does not reach the session of the page and is kept apart, in
      [detached_status].
    - [time.sleep] and [event.wait] raise for arguments they do not
      accept (a negative or too large delay, a too large timeout) instead
      of blocking.
    - Waiting is not measured in seconds: a wait times out when the frames
      that arrive during it leave the event unset. *)

From stdpp Require Import gmap strings list fin_maps pretty.
From Stdlib Require Import ZArith QArith Lia.

Set Warnings "-register-all".
Local Open Scope string_scope.
Local Open Scope Z_scope.

(** ** JSON values and Python dictionaries *)

Inductive json : Type :=
| JNull
| JBool (b : bool)
| JInt (n : Z)
| JStr (s : string)
| JList (items : list json)
| JDict (fields : list (string * json)).

Abbreviation pydict := (list (string * json)).

(** [d.get(k)] *)
Fixpoint dict_get (k : string) (d : pydict) : option json :=
  match d with
  | [] => None
  | (k', v) :: d' => if decide (k' = k) then Some v else dict_get k d'
  end.

(** [d[k] = v]: an existing key keeps its place, a new key goes last. *)
Fixpoint dict_set (k : string) (v : json) (d : pydict) : pydict :=
  match d with
  | [] => [(k, v)]
  | (k', v') :: d' =>
      if decide (k' = k) then (k, v) :: d' else (k', v') :: dict_set k v d'
  end.

(** Python truthiness, as [not message.get("id")] tests it. *)
Definition truthy (v : json) : bool :=
  match v with
  | JNull => false
  | JBool b => b
  | JInt n => negb (n =? 0)
  | JStr s => negb (String.eqb s "")
  | JList items => match items with [] => false | _ => true end
  | JDict fields => match fields with [] => false | _ => true end
  end.

Definition truthy_opt (o : option json) : bool :=
  match o with Some v => truthy v | None => false end.

(** Keys of [message_callbacks].  Python hashes [None], numbers and strings;
    [True] and [False] hash and compare as [1] and [0]; lists and
    dictionaries are unhashable. *)
Inductive key : Type :=
| KNone
| KInt (n : Z)
| KStr (s : string).

Definition hash_key (v : json) : option key :=
  match v with
  | JNull => Some KNone
  | JBool b => Some (KInt (if b then 1 else 0))
  | JInt n => Some (KInt n)
  | JStr s => Some (KStr s)
  | JList _ | JDict _ => None
  end.

#[global] Instance key_eq_dec : EqDecision key.
Proof. solve_decision. Defined.

Definition key_to_sum (k : key) : unit + (Z + string) :=
  match k with
  | KNone => inl ()
  | KInt n => inr (inl n)
  | KStr s => inr (inr s)
  end.

Definition key_of_sum (x : unit + (Z + string)) : key :=
  match x with
  | inl _ => KNone
  | inr (inl n) => KInt n
  | inr (inr s) => KStr s
  end.

#[global] Instance key_countable : Countable key.
Proof.
  refine (inj_countable' key_to_sum key_of_sum _).
  intros []; reflexivity.
Defined.

(** ** Exceptions, effects and the environment *)

(** The exception classes the client can meet.  [RequestException] stands
    for [requests.exceptions.RequestException] where the subclass does not
    matter.  Its subclasses named here are [ConnectionError] (connection
    refused), [Timeout], [HTTPError] (what [raise_for_status] raises) and
    the [JSONDecodeError] of [requests], which [response.json()] raises
    for a body that is not JSON (since version 2.27 of the library).
    [JSONDecodeError] is that of [json].  The [except] clause of the HTTP
    branch matches the whole [RequestException] family. *)
Inductive exn_class : Type :=
| RequestException
| RequestsConnectionError
| RequestsTimeout
| HTTPError
| RequestsJSONDecodeError
| JSONDecodeError
| AttributeError
| KeyError
| TypeError
| ValueError
| OverflowError
| RecursionError
| WebSocketConnectionClosedException
| OtherException.

Record exn : Type := Exn { exn_type : exn_class; exn_str : string }.

Definition is_RequestException (e : exn) : bool :=
  match exn_type e with
  | RequestException | RequestsConnectionError | RequestsTimeout
  | HTTPError | RequestsJSONDecodeError => true
  | _ => false
  end.

Inductive outcome (A : Type) : Type :=
| Ret (a : A)
| Raise (e : exn).
Arguments Ret {A} a.
Arguments Raise {A} e.

(** [websocket.WebSocketApp(ws_url, ..., header=self.get_headers())] *)
Record WebSocketApp : Type := {
  app_url : string;
  app_header : list (string * string)
}.

(** One attempt of the HTTP branch: [requests.post], [raise_for_status] and
    [response.json()] either produce the decoded body or raise. *)
Inductive http_outcome : Type :=
| Responded (body : json)
| Raised (e : exn).

(** What the WebSocket thread reports to the callbacks. *)
Inductive ws_event : Type :=
| WsOpen
| WsError (error : string)
| WsClose (close_status_code : Z) (close_msg : string)
| WsMessage (message : string).

Record environment : Type := {
  json_loads : string → option json;
  json_failure : string → exn;
  json_dumps : json → string;
  uuid4 : nat → string;
  post : nat → http_outcome;
  ws_send : nat → option exn;
  background : nat → list ws_event
}.

(** The calls that leave the process or block it, in program order. *)
Inductive effect : Type :=
| EThreadStart (app : WebSocketApp)
| ESleep (seconds : Q)
| EWsSend (frame : string)
| EWait (seconds : Z)
| EPost (url : string) (headers : list (string * string)) (body : json)
    (seconds : Z).

Inductive level : Type := DEBUG | INFO | WARNING | ERROR.

(** A logging call: the level, the constant text of the f-string and the
    values formatted into it. *)
Record log_record : Type := {
  log_level : level;
  log_text : string;
  log_args : list json
}.

(** ** The state *)

(** The fields of [self], then the rest of the process: the dictionaries
    allocated so far, the completion signals that were set (with the value
    stored in the result slot), [st.session_state.connection_status] of
    the session the page runs in, the effects and log records so far, the
    logical clock, and the values assigned to
    [st.session_state.connection_status] by code that runs outside any
    script run (see [detached_session_write]). *)
Record state : Type := {
  server_url : string;
  api_key : option string;
  connection_type : string;
  timeout : Z;
  max_retries : Z;
  retry_delay : Z;
  ws : option WebSocketApp;
  ws_connected : bool;
  message_callbacks : gmap key nat;
  heap : gmap nat pydict;
  events : gmap nat json;
  next_callback : nat;
  connection_status : string;
  trace : list effect;
  log : list log_record;
  clock : nat;
  detached_status : list string
}.

Definition set_ws (v : option WebSocketApp) (σ : state) : state :=
  {| server_url := server_url σ; api_key := api_key σ;
     connection_type := connection_type σ; timeout := timeout σ;
     max_retries := max_retries σ; retry_delay := retry_delay σ;
     ws := v; ws_connected := ws_connected σ;
     message_callbacks := message_callbacks σ; heap := heap σ;
     events := events σ; next_callback := next_callback σ;
     connection_status := connection_status σ; trace := trace σ;
     log := log σ; clock := clock σ;
     detached_status := detached_status σ |}.

Definition set_ws_connected (v : bool) (σ : state) : state :=
  {| server_url := server_url σ; api_key := api_key σ;
     connection_type := connection_type σ; timeout := timeout σ;
     max_retries := max_retries σ; retry_delay := retry_delay σ;
     ws := ws σ; ws_connected := v;
     message_callbacks := message_callbacks σ; heap := heap σ;
     events := events σ; next_callback := next_callback σ;
     connection_status := connection_status σ; trace := trace σ;
     log := log σ; clock := clock σ;
     detached_status := detached_status σ |}.

Definition set_message_callbacks (v : gmap key nat) (σ : state) : state :=
  {| server_url := server_url σ; api_key := api_key σ;
     connection_type := connection_type σ; timeout := timeout σ;
     max_retries := max_retries σ; retry_delay := retry_delay σ;
     ws := ws σ; ws_connected := ws_connected σ;
     message_callbacks := v; heap := heap σ;
     events := events σ; next_callback := next_callback σ;
     connection_status := connection_status σ; trace := trace σ;
     log := log σ; clock := clock σ;
     detached_status := detached_status σ |}.

Definition set_heap (v : gmap nat pydict) (σ : state) : state :=
  {| server_url := server_url σ; api_key := api_key σ;
     connection_type := connection_type σ; timeout := timeout σ;
     max_retries := max_retries σ; retry_delay := retry_delay σ;
     ws := ws σ; ws_connected := ws_connected σ;
     message_callbacks := message_callbacks σ; heap := v;
     events := events σ; next_callback := next_callback σ;
     connection_status := connection_status σ; trace := trace σ;
     log := log σ; clock := clock σ;
     detached_status := detached_status σ |}.

Definition set_events (v : gmap nat json) (σ : state) : state :=
  {| server_url := server_url σ; api_key := api_key σ;
     connection_type := connection_type σ; timeout := timeout σ;
     max_retries := max_retries σ; retry_delay := retry_delay σ;
     ws := ws σ; ws_connected := ws_connected σ;
     message_callbacks := message_callbacks σ; heap := heap σ;
     events := v; next_callback := next_callback σ;
     connection_status := connection_status σ; trace := trace σ;
     log := log σ; clock := clock σ;
     detached_status := detached_status σ |}.

Definition set_next_callback (v : nat) (σ : state) : state :=
  {| server_url := server_url σ; api_key := api_key σ;
     connection_type := connection_type σ; timeout := timeout σ;
     max_retries := max_retries σ; retry_delay := retry_delay σ;
     ws := ws σ; ws_connected := ws_connected σ;
     message_callbacks := message_callbacks σ; heap := heap σ;
     events := events σ; next_callback := v;
     connection_status := connection_status σ; trace := trace σ;
     log := log σ; clock := clock σ;
     detached_status := detached_status σ |}.

Definition set_connection_status (v : string) (σ : state) : state :=
  {| server_url := server_url σ; api_key := api_key σ;
     connection_type := connection_type σ; timeout := timeout σ;
     max_retries := max_retries σ; retry_delay := retry_delay σ;
     ws := ws σ; ws_connected := ws_connected σ;
     message_callbacks := message_callbacks σ; heap := heap σ;
     events := events σ; next_callback := next_callback σ;
     connection_status := v; trace := trace σ;
     log := log σ; clock := clock σ;
     detached_status := detached_status σ |}.

Definition set_trace (v : list effect) (σ : state) : state :=
  {| server_url := server_url σ; api_key := api_key σ;
     connection_type := connection_type σ; timeout := timeout σ;
     max_retries := max_retries σ; retry_delay := retry_delay σ;
     ws := ws σ; ws_connected := ws_connected σ;
     message_callbacks := message_callbacks σ; heap := heap σ;
     events := events σ; next_callback := next_callback σ;
     connection_status := connection_status σ; trace := v;
     log := log σ; clock := clock σ;
     detached_status := detached_status σ |}.

Definition set_log (v : list log_record) (σ : state) : state :=
  {| server_url := server_url σ; api_key := api_key σ;
     connection_type := connection_type σ; timeout := timeout σ;
     max_retries := max_retries σ; retry_delay := retry_delay σ;
     ws := ws σ; ws_connected := ws_connected σ;
     message_callbacks := message_callbacks σ; heap := heap σ;
     events := events σ; next_callback := next_callback σ;
     connection_status := connection_status σ; trace := trace σ;
     log := v; clock := clock σ;
     detached_status := detached_status σ |}.

Definition set_clock (v : nat) (σ : state) : state :=
  {| server_url := server_url σ; api_key := api_key σ;
     connection_type := connection_type σ; timeout := timeout σ;
     max_retries := max_retries σ; retry_delay := retry_delay σ;
     ws := ws σ; ws_connected := ws_connected σ;
     message_callbacks := message_callbacks σ; heap := heap σ;
     events := events σ; next_callback := next_callback σ;
     connection_status := connection_status σ; trace := trace σ;
     log := log σ; clock := v;
     detached_status := detached_status σ |}.

Definition set_detached_status (v : list string) (σ : state) : state :=
  {| server_url := server_url σ; api_key := api_key σ;
     connection_type := connection_type σ; timeout := timeout σ;
     max_retries := max_retries σ; retry_delay := retry_delay σ;
     ws := ws σ; ws_connected := ws_connected σ;
     message_callbacks := message_callbacks σ; heap := heap σ;
     events := events σ; next_callback := next_callback σ;
     connection_status := connection_status σ; trace := trace σ;
     log := log σ; clock := clock σ; detached_status := v |}.

(** ** The monad of client code: state passing with exceptions *)

Definition M (A : Type) : Type := state → outcome A * state.

#[global] Instance M_ret : MRet M := λ A a σ, (Ret a, σ).

#[global] Instance M_bind : MBind M := λ A B f m σ,
  match m σ with
  | (Ret a, σ') => f a σ'
  | (Raise e, σ') => (Raise e, σ')
  end.

Definition raise {A : Type} (e : exn) : M A := λ σ, (Raise e, σ).

Definition gets {A : Type} (f : state → A) : M A := λ σ, (Ret (f σ), σ).

Definition modify (f : state → state) : M unit := λ σ, (Ret (), f σ).

(** [try: body except Exception as e: handler(e)] *)
Definition try_except {A : Type} (body : M A) (handler : exn → M A) : M A :=
  λ σ,
  match body σ with
  | (Ret a, σ') => (Ret a, σ')
  | (Raise e, σ') => handler e σ'
  end.

Definition emit (e : effect) : M unit :=
  modify (λ σ, set_trace (trace σ ++ [e]) σ).

Definition logger (l : level) (text : string) (args : list json) : M unit :=
  modify (λ σ, set_log (log σ ++
    [{| log_level := l; log_text := text; log_args := args |}]) σ).

(** Reading the clock advances it. *)
Definition tick : M nat :=
  λ σ, (Ret (clock σ), set_clock (S (clock σ)) σ).

(** ** The client *)

Section Client.

Variable E : environment.

(** [get_headers] *)
Definition get_headers (σ : state) : list (string * string) :=
  [("Content-Type", "application/json")] ++
  match api_key σ with
  | Some k =>
      if String.eqb k "" then [] else [("Authorization", "Bearer " +:+ k)]
  | None => []
  end.

(** [s.replace(old, new)] for a non-empty [old]: every occurrence, left to
    right, without overlap.  [skip] counts the characters of an occurrence
    still to be dropped. *)
Fixpoint replace_from (skip : nat) (old new s : string) : string :=
  match s with
  | EmptyString => EmptyString
  | String c s' =>
      match skip with
      | S k => replace_from k old new s'
      | O =>
          if String.prefix old s
          then new +:+ replace_from (Nat.pred (String.length old)) old new s'
          else String c (replace_from O old new s')
      end
  end.

Definition str_replace (old new s : string) : string :=
  replace_from O old new s.

(** The scheme rewriting at the head of [connect_websocket]. *)
Definition ws_url_of (url : string) : string :=
  if String.prefix "http://" url then str_replace "http://" "ws://" url
  else if String.prefix "https://" url then str_replace "https://" "wss://" url
  else url.

(** The closure [callback] of one call is named by a number [cb]; calling
    it stores [data] in that call's [result] and sets its [event]. *)
Definition callback (cb : nat) (data : json) : M unit :=
  modify (λ σ, set_events (<[cb := data]> (events σ)) σ).

(** [data.get("id")]: only a dictionary has [get]. *)
Definition json_get_id (data : json) : M json :=
  match data with
  | JDict fields => mret (default JNull (dict_get "id" fields))
  | _ => raise (Exn AttributeError "object has no attribute 'get'")
  end.

(** [message_id in self.message_callbacks] hashes [message_id]. *)
Definition hash_or_raise (v : json) : M key :=
  match hash_key v with
  | Some k => mret k
  | None => raise (Exn TypeError "unhashable type")
  end.

Definition on_message_body (message : string) : M unit :=
  logger DEBUG "WebSocket message received: " [JStr message];;
  data ← match json_loads E message with
         | Some d => mret d
         | None => raise (Exn JSONDecodeError "Expecting value")
         end;
  message_id ← json_get_id data;
  k ← hash_or_raise message_id;
  table ← gets message_callbacks;
  match table !! k with
  | Some cb =>
      callback cb data;;
      modify (λ σ, set_message_callbacks (delete k (message_callbacks σ)) σ)
  | None => mret ()
  end.

Definition on_message (message : string) : M unit :=
  try_except (on_message_body message)
    (λ e, logger ERROR "Error processing message: " [JStr (exn_str e)]).

(** [st.session_state.connection_status = status] in a callback.  The
    callbacks run in the WebSocket thread, which has no script-run context:
    Streamlit hands code without one a fresh, empty session state, so the
    assignment does not write the session of the page and
    [connection_status] stays as it is.  The assigned values are kept in
    [detached_status]. *)
Definition detached_session_write (status : string) : M unit :=
  modify (λ σ, set_detached_status (detached_status σ ++ [status]) σ).

Definition on_error (error : string) : M unit :=
  logger ERROR "WebSocket error: " [JStr error];;
  modify (set_ws_connected false);;
  detached_session_write "Error".

Definition on_close (close_status_code : Z) (close_msg : string) : M unit :=
  logger WARNING "WebSocket connection closed: "
    [JInt close_status_code; JStr close_msg];;
  modify (set_ws_connected false);;
  detached_session_write "Disconnected".

Definition on_open : M unit :=
  logger INFO "WebSocket connected" [];;
  modify (set_ws_connected true);;
  detached_session_write "Connected".

(** The WebSocket thread runs one callback per event; what a callback
    raises stays in that thread. *)
Definition dispatch (ev : ws_event) : M unit :=
  match ev with
  | WsOpen => on_open
  | WsError error => on_error error
  | WsClose code msg => on_close code msg
  | WsMessage message => on_message message
  end.

Definition run_events (evs : list ws_event) (σ : state) : state :=
  foldl (λ σ' ev, snd (dispatch ev σ')) σ evs.

(** A blocking call of the caller: the WebSocket thread runs meanwhile. *)
Definition block : M unit :=
  n ← tick;
  modify (run_events (background E n)).

(** The largest whole number of seconds that [time.sleep] and the timed
    wait of a lock accept: both keep time in a signed 64-bit count of
    nanoseconds ([threading.TIMEOUT_MAX] is this number). *)
Definition time_max : Z := 9223372036.

(** Whether a number of seconds fits the 64-bit count of nanoseconds. *)
Definition fits_clock (seconds : Q) : bool :=
  Qle_bool (-9223372036854775808 # 1000000000) seconds
  && Qle_bool seconds (9223372036854775807 # 1000000000).

(** [time.sleep(seconds)]: the argument is converted first, which fails
    for a number out of range, and a negative number is refused. *)
Definition sleep (seconds : Q) : M unit :=
  if negb (fits_clock seconds) then
    raise (Exn OverflowError "timestamp too large to convert to C PyTime_t")
  else if negb (Qle_bool 0 seconds) then
    raise (Exn ValueError "sleep length must be non-negative")
  else
    emit (ESleep seconds);;
    block.

(** [connect_websocket]: the new thread may run as soon as it is started. *)
Definition connect_websocket : M unit :=
  ct ← gets connection_type;
  if negb (String.eqb ct "WebSocket") then mret ()
  else
    url ← gets server_url;
    header ← gets get_headers;
    let app := {| app_url := ws_url_of url; app_header := header |} in
    modify (set_ws (Some app));;
    emit (EThreadStart app);;
    block.

(** [for _ in range(n): if self.ws_connected: break; time.sleep(0.5)] *)
Fixpoint wait_for_connection (n : nat) : M unit :=
  match n with
  | O => mret ()
  | S n' =>
      c ← gets ws_connected;
      if (c : bool) then mret ()
      else sleep (1 # 2);; wait_for_connection n'
  end.

Definition ensure_connected : M unit :=
  c ← gets ws_connected;
  if (c : bool) then mret ()
  else connect_websocket;; wait_for_connection 10.

(** The first statement of [send_message]. *)
Definition assign_id (message : nat) : M unit :=
  m ← gets (λ σ, heap σ !!! message);
  if negb (truthy_opt (dict_get "id" m)) then
    n ← tick;
    modify (λ σ, set_heap (<[message := dict_set "id" (JStr (uuid4 E n)) m]>
                             (heap σ)) σ)
  else mret ().

Definition error_dict (text : string) : json :=
  JDict [("error", JStr text)].

(** [self.ws.send(data)]: the write to the socket blocks the caller, so
    the WebSocket thread may run before [send] returns. *)
Definition ws_send_frame (frame : string) : M unit :=
  w ← gets ws;
  match w with
  | None => raise (Exn AttributeError "'NoneType' object has no attribute 'send'")
  | Some _ =>
      n ← tick;
      emit (EWsSend frame);;
      match ws_send E n with
      | Some e => raise e
      | None => block
      end
  end.

(** [event.wait(timeout=seconds)].  An event that is set is reported at
    once.  Otherwise the caller waits on a lock: a timeout above
    [threading.TIMEOUT_MAX] is refused, a timeout that is not positive
    makes the attempt without blocking, and any other timeout blocks the
    caller; the result is whether the event is set when the wait is
    over. *)
Definition event_wait (cb : nat) (seconds : Z) : M bool :=
  emit (EWait seconds);;
  evs ← gets events;
  if bool_decide (is_Some (evs !! cb)) then mret true
  else if time_max <? seconds then
    raise (Exn OverflowError "timeout value is too large")
  else if seconds <=? 0 then mret false
  else
    block;;
    evs' ← gets events;
    mret (bool_decide (is_Some (evs' !! cb))).

(** The WebSocket branch of [send_message] once connected: the callback is
    registered, the frame sent and the reply awaited. *)
Definition websocket_call (message : nat) : M json :=
  cb ← gets next_callback;
  modify (set_next_callback (S cb));;
  m ← gets (λ σ, heap σ !!! message);
  idv ← match dict_get "id" m with
        | Some v => mret v
        | None => raise (Exn KeyError "'id'")
        end;
  k ← hash_or_raise idv;
  modify (λ σ, set_message_callbacks (<[k := cb]> (message_callbacks σ)) σ);;
  ws_send_frame (json_dumps E (JDict m));;
  t ← gets timeout;
  signalled ← event_wait cb t;
  if negb signalled then
    logger ERROR "Request timed out" [];;
    mret (error_dict "Request timed out")
  else
    evs ← gets events;
    mret (default (JDict []) (evs !! cb)).

(** One pass of the body of the HTTP loop up to the decoded response. *)
Definition http_attempt (attempt : Z) (message : nat) : M http_outcome :=
  r ← gets max_retries;
  logger DEBUG "HTTP request attempt " [JInt (attempt + 1); JInt (r + 1)];;
  url ← gets server_url;
  header ← gets get_headers;
  m ← gets (λ σ, heap σ !!! message);
  t ← gets timeout;
  n ← tick;
  emit (EPost url header (JDict m) t);;
  mret (post E n).

Definition http_error_text (attempts : Z) (e : exn) : string :=
  "HTTP request failed after " +:+ pretty attempts +:+ " attempts: "
    +:+ exn_str e.

(** [for attempt in range(self.max_retries + 1)], with [n] passes left.
    When the range is exhausted the function falls off its end and
    returns [None]. *)
Fixpoint http_loop (n : nat) (attempt : Z) (message : nat) : M json :=
  match n with
  | O => mret JNull
  | S n' =>
      o ← http_attempt attempt message;
      match o with
      | Responded body => mret body
      | Raised e =>
          if is_RequestException e then
            logger ERROR "HTTP request failed: " [JStr (exn_str e)];;
            r ← gets max_retries;
            if attempt <? r then
              d ← gets retry_delay;
              sleep (inject_Z d);;
              http_loop n' (attempt + 1) message
            else mret (error_dict (http_error_text (r + 1) e))
          else raise e
      end
  end.

(** The WebSocket branch of [send_message]. *)
Definition websocket_send (message : nat) : M json :=
  ensure_connected;;
  c ← gets ws_connected;
  if negb c then
    logger ERROR "Failed to connect to WebSocket" [];;
    mret (error_dict "Failed to connect to WebSocket")
  else websocket_call message.

(** The HTTP branch of [send_message]. *)
Definition http_send (message : nat) : M json :=
  r ← gets max_retries;
  http_loop (Z.to_nat (r + 1)) 0 message.

(** The statements of [send_message] before the branch: the id and the
    debug record. *)
Definition stamp (message : nat) : M unit :=
  assign_id message;;
  m ← gets (λ σ, heap σ !!! message);
  logger DEBUG "Sending message: " [JDict m].

Definition send_message (message : nat) : M json :=
  stamp message;;
  ct ← gets connection_type;
  if String.eqb ct "WebSocket" then websocket_send message
  else http_send message.

(** A dictionary display [{...}] makes a new object. *)
Definition new_dict (d : pydict) : M nat :=
  λ σ, let l := fresh (dom (heap σ)) in
       (Ret l, set_heap (<[l := d]> (heap σ)) σ).

Definition operation_message (name : string) (data : json) : pydict :=
  [("type", JStr "message"); ("name", JStr name); ("data", data)].

Definition payload (operation : string) (workflowIds parameters : string)
  : json :=
  JDict [("operation", JStr operation); ("workflowIds", JStr workflowIds);
         ("parameters", JStr parameters)].

Definition list_workflows : M json :=
  message ← new_dict (operation_message "listWorkflows"
                        (payload "listWorkflows" "null" "null"));
  send_message message.

Definition search_workflows : M json :=
  message ← new_dict (operation_message "searchWorkflows"
                        (payload "searchWorkflows" "null" "null"));
  send_message message.

Definition add_workflow (workflow_ids : string) : M json :=
  message ← new_dict (operation_message "addWorkflow"
                        (payload "addWorkflow" workflow_ids "null"));
  send_message message.

Definition remove_workflow (workflow_ids : string) : M json :=
  message ← new_dict (operation_message "removeWorkflow"
                        (payload "removeWorkflow" workflow_ids "null"));
  send_message message.

Definition execute_workflow (workflow_id : string) (parameters : pydict)
  : M json :=
  message ← new_dict (operation_message "executeWorkflow"
                        (payload "executeWorkflow" workflow_id
                           (json_dumps E (JDict parameters))));
  send_message message.

Definition custom_command (command_name : string) (data : json) : M json :=
  message ← new_dict (operation_message command_name data);
  send_message message.

End Client.

(** ** Sample environments and states

    A compact printer in the layout of [json.dumps] (strings are printed
    without escapes, which is enough for the samples below), and a decoder
    that recognises the text of the listed values. *)

Definition dq : string := String (Ascii.ascii_of_nat 34) "".

Fixpoint sample_dumps (v : json) : string :=
  match v with
  | JNull => "null"
  | JBool b => if b then "true" else "false"
  | JInt n => pretty n
  | JStr s => dq +:+ s +:+ dq
  | JList items =>
      "[" +:+
      (fix go (l : list json) : string :=
         match l with
         | [] => ""
         | [x] => sample_dumps x
         | x :: l' => sample_dumps x +:+ ", " +:+ go l'
         end) items +:+ "]"
  | JDict fields =>
      "{" +:+
      (fix go (l : pydict) : string :=
         match l with
         | [] => ""
         | [(k, x)] => dq +:+ k +:+ dq +:+ ": " +:+ sample_dumps x
         | (k, x) :: l' =>
             dq +:+ k +:+ dq +:+ ": " +:+ sample_dumps x +:+ ", " +:+ go l'
         end) fields +:+ "}"
  end.

Definition sample_loads (known : list json) (text : string) : option json :=
  List.find (λ v, String.eqb (sample_dumps v) text) known.

Definition sample_uuid (n : nat) : string := "uuid-" +:+ pretty n.

Definition init_state (url : string) (kind : string) (seconds retries delay : Z)
  : state :=
  {| server_url := url; api_key := None; connection_type := kind;
     timeout := seconds; max_retries := retries; retry_delay := delay;
     ws := None; ws_connected := false; message_callbacks := ∅;
     heap := ∅; events := ∅; next_callback := O;
     connection_status := "Disconnected"; trace := []; log := [];
     clock := O; detached_status := [] |}.

(** ** Notions used in the statements *)

(** What a reply is filed under: the hash of its ["id"], when the decoded
    frame is a dictionary and the id is hashable. *)
Definition reply_key (data : json) : option key :=
  match data with
  | JDict fields => hash_key (default JNull (dict_get "id" fields))
  | _ => None
  end.

(** The fields that no callback of the WebSocket thread writes. *)
Definition untouched (σ σ' : state) : Prop :=
  server_url σ' = server_url σ ∧ api_key σ' = api_key σ ∧
  connection_type σ' = connection_type σ ∧ timeout σ' = timeout σ ∧
  max_retries σ' = max_retries σ ∧ retry_delay σ' = retry_delay σ ∧
  ws σ' = ws σ ∧ heap σ' = heap σ ∧ next_callback σ' = next_callback σ ∧
  trace σ' = trace σ ∧ clock σ' = clock σ.

(** The log records of [on_message]. *)
Definition received (message : string) : log_record :=
  {| log_level := DEBUG; log_text := "WebSocket message received: ";
     log_args := [JStr message] |}.

Definition processing_error (text : string) : log_record :=
  {| log_level := ERROR; log_text := "Error processing message: ";
     log_args := [JStr text] |}.

(** The request an HTTP attempt for the message at [l] makes in [σ]. *)
Definition post_effect (l : nat) (σ : state) : effect :=
  EPost (server_url σ) (get_headers σ) (JDict (heap σ !!! l)) (timeout σ).


Definition is_post (e : effect) : bool :=
  match e with EPost _ _ _ _ => true | _ => false end.

Definition is_sleep (e : effect) : bool :=
  match e with ESleep _ => true | _ => false end.

Definition count_effects (f : effect → bool) (t : list effect) : nat :=
  length (List.filter f t).

(** An effect that puts a message on the wire carries the dictionary [m]. *)
Definition carries (E : environment) (m : pydict) (e : effect) : Prop :=
  match e with
  | EPost _ _ body _ => body = JDict m
  | EWsSend frame => frame = json_dumps E (JDict m)
  | _ => True
  end.

(** From [σ] to [σ']: configuration and heap are the same, and what was
    put on the wire meanwhile is the message at [l]. *)
Definition sends_only (E : environment) (l : nat) (σ σ' : state) : Prop :=
  server_url σ' = server_url σ ∧ api_key σ' = api_key σ ∧
  connection_type σ' = connection_type σ ∧ timeout σ' = timeout σ ∧
  max_retries σ' = max_retries σ ∧ retry_delay σ' = retry_delay σ ∧
  heap σ' = heap σ ∧
  ∃ new, trace σ' = (trace σ ++ new)%list
         ∧ Forall (carries E (heap σ !!! l)) new.

(** The operation [op] makes a new dictionary with the entries ["type"],
    ["name"] and ["data"], hands it to [send_message] and returns what that
    returns; the dictionary gets its id from [send_message] and is what
    goes on the wire: it is the body of the first request of an HTTP call
    and the frame a connected WebSocket client sends first. *)
Definition builds (E : environment) (op : M json) (name : string)
    (data : json) : Prop :=
  ∀ σ,
    let l := fresh (dom (heap σ)) in
    let m := [("type", JStr "message"); ("name", JStr name);
              ("data", data)] in
    let m' := [("type", JStr "message"); ("name", JStr name);
               ("data", data); ("id", JStr (uuid4 E (clock σ)))] in
    heap σ !! l = None
    ∧ op σ = send_message E l (set_heap (<[l := m]> (heap σ)) σ)
    ∧ heap (snd (op σ)) = <[l := m']> (heap σ)
    ∧ ∃ new, trace (snd (op σ)) = (trace σ ++ new)%list
        ∧ Forall (carries E m') new
        ∧ (connection_type σ ≠ "WebSocket" → 0 ≤ max_retries σ →
           ∃ rest, new = EPost (server_url σ) (get_headers σ) (JDict m')
                           (timeout σ) :: rest)
        ∧ (connection_type σ = "WebSocket" → ws_connected σ = true →
           is_Some (ws σ) →
           ∃ rest, new = EWsSend (json_dumps E (JDict m')) :: rest).

(** A computation keeps [R] when every run relates its start to its end,
    whether it returns or raises. *)
Definition keeps {A : Type} (R : state → state → Prop) (c : M A) : Prop :=
  ∀ σ, R σ (snd (c σ)).

Ltac munfold :=
  unfold mbind, M_bind, mret, M_ret, gets, modify, raise, emit, logger,
    tick, try_except in *.

(** A run of the WebSocket thread that delivers no frame. *)
Definition not_message (ev : ws_event) : Prop :=
  match ev with WsMessage _ => False | _ => True end.

(** Every call registered in [σ] has its completion signal set in [σ']. *)
Definition all_pending_signalled (σ σ' : state) : Prop :=
  ∀ k cb, message_callbacks σ !! k = Some cb → is_Some (events σ' !! cb).

(** ** Sample runs *)

Definition sample_url : string := "http://localhost:5678/api/mcp".

Definition sample_app : WebSocketApp :=
  {| app_url := "ws://localhost:5678/api/mcp";
     app_header := [("Content-Type", "application/json")] |}.

(** The message of [list_workflows], as the caller holds it before the
    call: no id yet. *)
Definition sample_message : pydict :=
  operation_message "listWorkflows" (payload "listWorkflows" "null" "null").

Definition sample_reply : json :=
  JDict [("id", JStr "uuid-0"); ("response", JDict [("status", JStr "ok")])].

Definition sample_error_reply : json :=
  JDict [("id", JStr "uuid-0"); ("error", JStr "Workflow not found")].

(** A quiet environment: the server refuses every request, [ws.send]
    succeeds, the WebSocket thread reports nothing. *)
Definition quiet_env : environment :=
  {| json_loads := sample_loads [sample_reply; sample_error_reply];
     json_failure := λ _, Exn JSONDecodeError "Expecting value";
     json_dumps := sample_dumps;
     uuid4 := sample_uuid;
     post := λ _, Raised (Exn RequestException
                            "500 Server Error: Internal Server Error");
     ws_send := λ _, None;
     background := λ _, [] |}.

(** The server answers every request with [body]. *)
Definition answering_env (body : json) : environment :=
  {| json_loads := json_loads quiet_env;
     json_failure := json_failure quiet_env; json_dumps := sample_dumps;
     uuid4 := sample_uuid; post := λ _, Responded body;
     ws_send := λ _, None; background := λ _, [] |}.

(** The socket is gone: [ws.send] raises. *)
Definition closed_socket_env : environment :=
  {| json_loads := json_loads quiet_env;
     json_failure := json_failure quiet_env; json_dumps := sample_dumps;
     uuid4 := sample_uuid; post := post quiet_env;
     ws_send := λ _, Some (Exn WebSocketConnectionClosedException
                             "Connection is already closed.");
     background := λ _, [] |}.

(** The connection is closed while the caller waits. *)
Definition closing_env : environment :=
  {| json_loads := json_loads quiet_env;
     json_failure := json_failure quiet_env; json_dumps := sample_dumps;
     uuid4 := sample_uuid; post := post quiet_env;
     ws_send := λ _, None;
     background := λ _, [WsClose 1006 "connection lost"] |}.

(** An HTTP client holding [sample_message] at location [0]. *)
Definition http_state (retries : Z) : state :=
  set_heap {[ O := sample_message ]} (init_state sample_url "HTTP" 30 retries 1).

(** A WebSocket client that never connected, and one that is connected. *)
Definition offline_state : state :=
  set_heap {[ O := sample_message ]}
    (init_state sample_url "WebSocket" 30 3 1).

Definition online_state : state :=
  set_connection_status "Connected"
    (set_ws_connected true (set_ws (Some sample_app) offline_state)).

(** A connected client with one call waiting under the id ["uuid-0"]. *)
Definition waiting_state : state :=
  set_next_callback 1%nat
    (set_message_callbacks {[ KStr "uuid-0" := O ]} online_state).

(** ** The schema helper of the page

    [parse_parameters_schema] is the one helper of the page that computes
    without drawing anything.  Its [except] clause names
    [json.JSONDecodeError] only. *)

Definition is_JSONDecodeError (e : exn) : bool :=
  match exn_type e with JSONDecodeError => true | _ => false end.

(** [try: body except json.JSONDecodeError: handler] *)
Definition try_except_decode {A : Type} (body : M A) (handler : M A) : M A :=
  λ σ,
  match body σ with
  | (Ret a, σ') => (Ret a, σ')
  | (Raise e, σ') => if is_JSONDecodeError e then handler σ' else (Raise e, σ')
  end.

(** [parameters_json == "null"] *)
Definition is_null_text (v : json) : bool :=
  match v with JStr s => String.eqb s "null" | _ => false end.

(** [json.loads(v)]: only text can be decoded, and on text that it does
    not decode [json.loads] raises what the environment says: a
    [JSONDecodeError] for text that is not JSON, but also a
    [RecursionError] for text nested too deep or a plain [ValueError] for
    a number with too many digits. *)
Definition loads_value (E : environment) (v : json) : M json :=
  match v with
  | JStr s =>
      match json_loads E s with
      | Some d => mret d
      | None => raise (json_failure E s)
      end
  | _ => raise (Exn TypeError
                  "the JSON object must be str, bytes or bytearray")
  end.

(** [isinstance(schema, dict)] *)
Definition is_dict (v : json) : bool :=
  match v with JDict _ => true | _ => false end.

Definition parse_parameters_schema (E : environment) (parameters_json : json)
  : M json :=
  try_except_decode
    (if negb (truthy parameters_json) || is_null_text parameters_json
     then mret (JDict [])
     else
       schema ← loads_value E parameters_json;
       if negb (is_dict schema) then mret (JDict [])
       else mret schema)
    (mret (JDict [])).

(** ** Further notions used in the statements *)

(** [old in s], for a non-empty [old]. *)
Fixpoint occurs (old s : string) : bool :=
  match s with
  | EmptyString => false
  | String _ s' => String.prefix old s || occurs old s'
  end.

(** The connection flag after a run of events: that of the last open,
    error or close event. *)
Definition final_flag (evs : list ws_event) (b : bool) : bool :=
  foldl (λ b' ev, match ev with
                  | WsOpen => true
                  | WsError _ | WsClose _ _ => false
                  | WsMessage _ => b'
                  end) b evs.

(** The values that the callbacks of a run of events assign to
    [st.session_state.connection_status], in the order of the events. *)
Definition status_writes (evs : list ws_event) : list string :=
  omap (λ ev, match ev with
              | WsOpen => Some "Connected"
              | WsError _ => Some "Error"
              | WsClose _ _ => Some "Disconnected"
              | WsMessage _ => None
              end) evs.

(** A frame that is not a reply filed under [k]. *)
Definition not_reply_to (E : environment) (k : key) (ev : ws_event) : Prop :=
  match ev with
  | WsMessage message =>
      match json_loads E message with
      | Some data => reply_key data ≠ Some k
      | None => True
      end
  | _ => True
  end.

(** The effects of the connecting part and of the exchange part of a
    WebSocket call. *)
Definition connect_effects (app : WebSocketApp) (k : nat) : list effect :=
  EThreadStart app :: replicate k (ESleep (1 # 2)).

(** ** Further sample runs *)

(** A message the caller has given an id of its own. *)
Definition sample_message_with_id : pydict :=
  dict_set "id" (JStr "call-7") sample_message.

Definition http_state_with_id (retries : Z) : state :=
  set_heap {[ O := sample_message_with_id ]}
    (init_state sample_url "HTTP" 30 retries 1).

(** The server answers with a body that is not JSON, with a version of
    the library whose decoding error is a plain [ValueError]. *)
Definition broken_body_env : environment :=
  {| json_loads := json_loads quiet_env;
     json_failure := json_failure quiet_env; json_dumps := sample_dumps;
     uuid4 := sample_uuid;
     post := λ _, Raised (Exn OtherException "Expecting value");
     ws_send := λ _, None; background := λ _, [] |}.

(** The reply to the first call arrives before the caller starts to wait
    (the id is given at tick 0, the frame sent at tick 1, and the thread
    runs at tick 2 while the send is under way). *)
Definition replying_env (reply : json) : environment :=
  {| json_loads := json_loads quiet_env;
     json_failure := json_failure quiet_env; json_dumps := sample_dumps;
     uuid4 := sample_uuid; post := post quiet_env;
     ws_send := λ _, None;
     background := λ n, if Nat.eqb n 2 then [WsMessage (sample_dumps reply)]
                        else [] |}.

(** A reply to some other call. *)
Definition sample_other_reply : json :=
  JDict [("id", JStr "uuid-9"); ("response", JStr "late")].

Definition other_reply_env : environment :=
  {| json_loads := sample_loads [sample_reply; sample_other_reply];
     json_failure := λ _, Exn JSONDecodeError "Expecting value";
     json_dumps := sample_dumps;
     uuid4 := sample_uuid; post := post quiet_env;
     ws_send := λ _, None;
     background := λ n, if Nat.eqb n 2
                        then [WsMessage (sample_dumps sample_other_reply)]
                        else [] |}.

(** A client with an API key. *)
Definition keyed_state : state :=
  {| server_url := "https://n8n.example.org/api/mcp";
     api_key := Some "secret"; connection_type := "HTTP";
     timeout := 30; max_retries := 3; retry_delay := 1;
     ws := None; ws_connected := false; message_callbacks := ∅;
     heap := {[ O := sample_message ]}; events := ∅; next_callback := O;
     connection_status := "Disconnected"; trace := []; log := [];
     clock := O; detached_status := [] |}.

(** The connection opens as soon as the thread is started, and the reply
    to the first call arrives before the caller starts to wait (the id is
    given at tick 0, the thread started at tick 1, the frame sent at
    tick 2, and the thread runs at tick 3 while the send is under way). *)
Definition opening_env : environment :=
  {| json_loads := json_loads quiet_env;
     json_failure := json_failure quiet_env; json_dumps := sample_dumps;
     uuid4 := sample_uuid; post := post quiet_env;
     ws_send := λ _, None;
     background := λ n, if Nat.eqb n 1 then [WsOpen]
                        else if Nat.eqb n 3
                             then [WsMessage (sample_dumps sample_reply)]
                             else [] |}.

(** ** Notions and samples for the retry policy *)





(** ** The end of a WebSocket call *)

(** [websocket_call] from the wait on: what the call does once the frame
    is sent and its callback [cb] is registered. *)
Definition await_reply (E : environment) (cb : nat) : M json :=
  t ← gets timeout;
  signalled ← event_wait E cb t;
  if negb signalled then
    logger ERROR "Request timed out" [];;
    mret (error_dict "Request timed out")
  else
    evs ← gets events;
    mret (default (JDict []) (evs !! cb)).

(** The log record of a timeout. *)
Definition timed_out : log_record :=
  {| log_level := ERROR; log_text := "Request timed out"; log_args := [] |}.

(** ** A text that [json.loads] gives up on *)

(** The character that opens an array, and [n] of them. *)
Definition bracket : Ascii.ascii := Ascii.ascii_of_nat 91.

Fixpoint brackets (n : nat) : string :=
  match n with
  | O => ""
  | S n' => String bracket (brackets n')
  end.

Fixpoint leading_brackets (s : string) : nat :=
  match s with
  | String c s' => if Ascii.eqb c bracket then S (leading_brackets s') else O
  | EmptyString => O
  end.

(** An interpreter whose decoder nests at most 1000 arrays (the default
    recursion limit of CPython): text that opens more arrays than that is
    given up with a [RecursionError], any other text that does not decode
    with a [JSONDecodeError]. *)
Definition recursion_limit_env : environment :=
  {| json_loads := sample_loads [sample_reply];
     json_failure := λ s,
       if (1000 <? leading_brackets s)%nat
       then Exn RecursionError
              "maximum recursion depth exceeded while decoding a JSON array from a unicode string"
       else Exn JSONDecodeError "Expecting value";
     json_dumps := sample_dumps; uuid4 := sample_uuid;
     post := post quiet_env; ws_send := λ _, None;
     background := λ _, [] |}.

(** The reply to the first call of a connected client arrives while the
    caller waits (the id is given at tick 0, the frame sent at tick 1,
    the thread runs at tick 2 while the send is under way and at tick 3
    while the caller waits). *)
Definition late_reply_env (reply : json) : environment :=
  {| json_loads := json_loads quiet_env;
     json_failure := json_failure quiet_env; json_dumps := sample_dumps;
     uuid4 := sample_uuid; post := post quiet_env;
     ws_send := λ _, None;
     background := λ n, if Nat.eqb n 3 then [WsMessage (sample_dumps reply)]
                        else [] |}.

(** * Properties *)

(** ** Basic facts: dictionaries, the monad, the callbacks *)

Lemma dict_get_set_eq k v d : dict_get k (dict_set k v d) = Some v.
Proof.
  induction d as [|[k' v'] d IH]; simpl.
  - by rewrite decide_True.
  - destruct (decide (k' = k)); simpl.
    + by rewrite decide_True.
    + by rewrite decide_False.
Qed.

Lemma dict_get_set_ne k k' v d :
  k ≠ k' → dict_get k' (dict_set k v d) = dict_get k' d.
Proof.
  intros Hne. induction d as [|[k0 v0] d IH]; simpl.
  - by rewrite decide_False.
  - destruct (decide (k0 = k)) as [->|Hk]; simpl.
    + by rewrite !decide_False.
    + destruct (decide (k0 = k')); [done | apply IH].
Qed.

Lemma truthy_JStr_nonempty s : s ≠ "" → truthy (JStr s) = true.
Proof.
  intros Hs. simpl. destruct (String.eqb_spec s ""); [done | reflexivity].
Qed.

Lemma untouched_refl σ : untouched σ σ.
Proof. repeat split. Qed.

Lemma untouched_trans σ1 σ2 σ3 :
  untouched σ1 σ2 → untouched σ2 σ3 → untouched σ1 σ3.
Proof.
  unfold untouched. intros H1 H2.
  destruct H1 as (?&?&?&?&?&?&?&?&?&?&?).
  destruct H2 as (?&?&?&?&?&?&?&?&?&?&?).
  repeat split; congruence.
Qed.

Section Callbacks.

Variable E : environment.

Lemma on_message_body_cases message σ :
  match json_loads E message with
  | None =>
      ∃ σ1, on_message_body E message σ
            = (Raise (Exn JSONDecodeError "Expecting value"), σ1)
        ∧ untouched σ σ1 ∧ ws_connected σ1 = ws_connected σ
        ∧ connection_status σ1 = connection_status σ
        ∧ message_callbacks σ1 = message_callbacks σ
        ∧ events σ1 = events σ
        ∧ log σ1 = (log σ ++ [{| log_level := DEBUG;
                                 log_text := "WebSocket message received: ";
                                 log_args := [JStr message] |}])%list
  | Some data =>
      ∃ o σ1, on_message_body E message σ = (o, σ1)
        ∧ untouched σ σ1 ∧ ws_connected σ1 = ws_connected σ
        ∧ connection_status σ1 = connection_status σ
        ∧ log σ1 = (log σ ++ [{| log_level := DEBUG;
                                 log_text := "WebSocket message received: ";
                                 log_args := [JStr message] |}])%list
        ∧ match reply_key data with
          | Some k =>
              o = Ret () ∧
              match message_callbacks σ !! k with
              | Some cb =>
                  events σ1 = <[cb := data]> (events σ)
                  ∧ message_callbacks σ1 = delete k (message_callbacks σ)
              | None =>
                  events σ1 = events σ
                  ∧ message_callbacks σ1 = message_callbacks σ
              end
          | None =>
              (∃ e, o = Raise e)
              ∧ events σ1 = events σ
              ∧ message_callbacks σ1 = message_callbacks σ
          end
  end.
Proof.
  unfold on_message_body. munfold. simpl.
  destruct (json_loads E message) as [data|] eqn:Hl; simpl.
  2:{ eexists. split; [reflexivity|]. simpl. repeat split. }
  unfold json_get_id, hash_or_raise, callback. munfold.
  destruct data as [| b | n | s | items | fields]; simpl;
    try (do 2 eexists; split; [reflexivity|]; simpl;
         repeat split; eauto; fail).
  destruct (hash_key (default JNull (dict_get "id" fields))) as [k|] eqn:Hk;
    simpl.
  2:{ do 2 eexists. split; [reflexivity|]. simpl. repeat split; eauto. }
  destruct (message_callbacks σ !! k) as [cb|] eqn:Hcb; simpl.
  - do 2 eexists. split; [reflexivity|]. simpl. repeat split.
  - do 2 eexists. split; [reflexivity|]. simpl. repeat split.
Qed.

Lemma dispatch_ret ev σ : fst (dispatch E ev σ) = Ret ().
Proof.
  destruct ev as [| error | code msg | message]; simpl; try reflexivity.
  unfold on_message. unfold try_except.
  pose proof (on_message_body_cases message σ) as H.
  destruct (json_loads E message) as [data|].
  - destruct H as (o & σ1 & -> & _). destruct o as [[]|e]; reflexivity.
  - destruct H as (σ1 & -> & _). reflexivity.
Qed.

Lemma dispatch_untouched ev σ :
  untouched σ (snd (dispatch E ev σ))
  ∧ message_callbacks (snd (dispatch E ev σ)) ⊆ message_callbacks σ.
Proof.
  destruct ev as [| error | code msg | message]; simpl;
    try (split; [repeat split | reflexivity]).
  unfold on_message. unfold try_except.
  pose proof (on_message_body_cases message σ) as H.
  destruct (json_loads E message) as [data|].
  - destruct H as (o & σ1 & -> & Hu & _ & _ & _ & Hk).
    assert (message_callbacks σ1 ⊆ message_callbacks σ) as Hsub.
    { destruct (reply_key data) as [k|].
      - destruct Hk as [_ Hk]. destruct (message_callbacks σ !! k).
        + destruct Hk as [_ ->]. apply delete_subseteq.
        + destruct Hk as [_ ->]. reflexivity.
      - destruct Hk as (_ & _ & ->). reflexivity. }
    destruct o; simpl; (split; [|exact Hsub]).
    + exact Hu.
    + munfold. simpl. destruct Hu as (?&?&?&?&?&?&?&?&?&?&?).
      repeat split; assumption.
  - destruct H as (σ1 & -> & Hu & _ & _ & Hc & _). munfold. simpl.
    split; [|rewrite Hc; reflexivity].
    destruct Hu as (?&?&?&?&?&?&?&?&?&?&?). repeat split; assumption.
Qed.

Lemma run_events_untouched evs σ :
  untouched σ (run_events E evs σ)
  ∧ message_callbacks (run_events E evs σ) ⊆ message_callbacks σ.
Proof.
  revert σ. induction evs as [|ev evs IH]; intros σ; simpl.
  - split; [apply untouched_refl | reflexivity].
  - destruct (IH (snd (dispatch E ev σ))) as [Hu Hs].
    destruct (dispatch_untouched ev σ) as [Hu0 Hs0].
    split; [eapply untouched_trans; eassumption | by etrans].
Qed.

End Callbacks.

(** ** The receive path *)

(** Every way [on_message] can go. *)
Lemma on_message_cases E message σ :
  ∃ σ', on_message E message σ = (Ret (), σ')
    ∧ untouched σ σ'
    ∧ ws_connected σ' = ws_connected σ
    ∧ connection_status σ' = connection_status σ
    ∧ match json_loads E message with
      | None =>
          message_callbacks σ' = message_callbacks σ
          ∧ events σ' = events σ
          ∧ log σ' = (log σ ++ [received message;
                                processing_error "Expecting value"])%list
      | Some data =>
          match reply_key data with
          | Some k =>
              match message_callbacks σ !! k with
              | Some cb =>
                  events σ' = <[cb := data]> (events σ)
                  ∧ message_callbacks σ' = delete k (message_callbacks σ)
                  ∧ log σ' = (log σ ++ [received message])%list
              | None =>
                  events σ' = events σ
                  ∧ message_callbacks σ' = message_callbacks σ
                  ∧ log σ' = (log σ ++ [received message])%list
              end
          | None =>
              events σ' = events σ
              ∧ message_callbacks σ' = message_callbacks σ
              ∧ ∃ text, log σ' = (log σ ++ [received message;
                                            processing_error text])%list
          end
      end
    ∧ ∀ k', (∀ data, json_loads E message = Some data →
                     reply_key data ≠ Some k') →
            message_callbacks σ' !! k' = message_callbacks σ !! k'.
Proof.
  unfold on_message, try_except.
  pose proof (on_message_body_cases E message σ) as H.
  destruct (json_loads E message) as [data|] eqn:Hl.
  - destruct H as (o & σ1 & -> & Hu & Hc & Hs & Hlog & Hk).
    destruct (reply_key data) as [k|] eqn:Hkey.
    + destruct Hk as [-> Hk]. exists σ1.
      split; [reflexivity|]. split; [exact Hu|]. split; [exact Hc|].
      split; [exact Hs|].
      destruct (message_callbacks σ !! k) as [cb|] eqn:Hcb.
      * destruct Hk as [Hev Hcbs]. split; [by rewrite Hlog|].
        intros k' Hne. rewrite Hcbs. apply lookup_delete_ne.
        intros ->. by apply (Hne data).
      * destruct Hk as [Hev Hcbs]. split; [by rewrite Hlog|].
        intros k' _. by rewrite Hcbs.
    + destruct Hk as ([e ->] & Hev & Hcbs). munfold. simpl.
      eexists. split; [reflexivity|]. simpl.
      destruct Hu as (?&?&?&?&?&?&?&?&?&?&?).
      split; [repeat split; assumption|]. split; [exact Hc|].
      split; [exact Hs|]. split.
      * split; [exact Hev|]. split; [exact Hcbs|].
        exists (exn_str e). rewrite Hlog. by rewrite <- app_assoc.
      * intros k' _. by rewrite Hcbs.
  - destruct H as (σ1 & -> & Hu & Hc & Hs & Hcbs & Hev & Hlog).
    munfold. simpl. eexists. split; [reflexivity|]. simpl.
    destruct Hu as (?&?&?&?&?&?&?&?&?&?&?).
    split; [repeat split; assumption|]. split; [exact Hc|].
    split; [exact Hs|]. split.
    + split; [exact Hcbs|]. split; [exact Hev|].
      rewrite Hlog. by rewrite <- app_assoc.
    + intros k' _. by rewrite Hcbs.
Qed.

(** C9: [on_message] returns normally on every frame.  A frame that does
    not decode is logged as an error and changes nothing else; a decoded
    reply whose id is the key of a registered callback has that callback
    called with the reply (result stored, event set) and the entry deleted;
    any other frame leaves table and signals as they were; and in every
    case the entries under all other keys are unchanged. *)
Theorem on_message_never_crashes E message σ :
  ∃ σ', on_message E message σ = (Ret (), σ')
    ∧ untouched σ σ'
    ∧ ws_connected σ' = ws_connected σ
    ∧ connection_status σ' = connection_status σ
    ∧ match json_loads E message with
      | None =>
          message_callbacks σ' = message_callbacks σ
          ∧ events σ' = events σ
          ∧ log σ' = (log σ ++ [received message;
                                processing_error "Expecting value"])%list
      | Some data =>
          match reply_key data with
          | Some k =>
              match message_callbacks σ !! k with
              | Some cb =>
                  events σ' = <[cb := data]> (events σ)
                  ∧ message_callbacks σ' = delete k (message_callbacks σ)
                  ∧ log σ' = (log σ ++ [received message])%list
              | None =>
                  events σ' = events σ
                  ∧ message_callbacks σ' = message_callbacks σ
                  ∧ log σ' = (log σ ++ [received message])%list
              end
          | None =>
              events σ' = events σ
              ∧ message_callbacks σ' = message_callbacks σ
              ∧ ∃ text, log σ' = (log σ ++ [received message;
                                            processing_error text])%list
          end
      end
    ∧ ∀ k', (∀ data, json_loads E message = Some data →
                     reply_key data ≠ Some k') →
            message_callbacks σ' !! k' = message_callbacks σ !! k'.
Proof. apply on_message_cases. Qed.

(** ** Blocking calls *)

Section Blocking.

Variable E : environment.

Lemma block_eq σ :
  block E σ
  = (Ret (), run_events E (background E (clock σ)) (set_clock (S (clock σ)) σ)).
Proof. reflexivity. Qed.

Lemma sleep_eq d σ :
  fits_clock d = true → Qle_bool 0 d = true →
  sleep E d σ
  = (Ret (), run_events E (background E (clock σ))
               (set_clock (S (clock σ)) (set_trace (trace σ ++ [ESleep d]) σ))).
Proof. intros Hf Hn. unfold sleep. by rewrite Hf, Hn. Qed.

(** A delay of whole seconds is accepted when it is not negative and not
    above [time_max]. *)
Lemma delay_accepted d :
  0 ≤ d ≤ time_max →
  fits_clock (inject_Z d) = true ∧ Qle_bool 0 (inject_Z d) = true.
Proof.
  unfold time_max. intros Hd. unfold fits_clock.
  rewrite andb_true_iff, !Qle_bool_iff. unfold Qle. simpl. lia.
Qed.

(** What a sleep that is accepted leaves in place. *)
Lemma sleep_facts d σ :
  fits_clock d = true → Qle_bool 0 d = true →
  ∃ σ', sleep E d σ = (Ret (), σ')
    ∧ server_url σ' = server_url σ ∧ api_key σ' = api_key σ
    ∧ connection_type σ' = connection_type σ ∧ timeout σ' = timeout σ
    ∧ max_retries σ' = max_retries σ ∧ retry_delay σ' = retry_delay σ
    ∧ ws σ' = ws σ ∧ heap σ' = heap σ ∧ next_callback σ' = next_callback σ
    ∧ trace σ' = (trace σ ++ [ESleep d])%list
    ∧ clock σ' = S (clock σ)
    ∧ message_callbacks σ' ⊆ message_callbacks σ.
Proof.
  intros Hf Hn. rewrite sleep_eq by done. eexists. split; [reflexivity|].
  match goal with |- context [run_events E ?evs ?s] =>
    destruct (run_events_untouched E evs s) as [Hu Hs] end.
  destruct Hu as (?&?&?&?&?&?&?&?&?&?&?).
  repeat split; try assumption.
Qed.

(** A sleep that is refused raises at once and changes nothing. *)
Lemma sleep_refused d σ :
  fits_clock d && Qle_bool 0 d = false →
  ∃ e, sleep E d σ = (Raise e, σ)
    ∧ (exn_type e = OverflowError ∧ fits_clock d = false
       ∨ exn_type e = ValueError ∧ Qle_bool 0 d = false).
Proof.
  intros Hno. unfold sleep. destruct (fits_clock d) eqn:Hf; simpl in *.
  - rewrite Hno. simpl. eexists. split; [reflexivity|]. right. by split.
  - eexists. split; [reflexivity|]. left. by split.
Qed.

End Blocking.

(** ** The HTTP branch *)

Section Http.

Variable E : environment.
Variable l : nat.

Lemma get_headers_ext σ σ' : api_key σ' = api_key σ → get_headers σ' = get_headers σ.
Proof. unfold get_headers. by intros ->. Qed.

Lemma post_effect_ext σ σ' :
  server_url σ' = server_url σ → api_key σ' = api_key σ →
  timeout σ' = timeout σ → heap σ' = heap σ →
  post_effect l σ' = post_effect l σ.
Proof.
  intros H1 H2 H3 H4. unfold post_effect.
  by rewrite H1, H3, H4, (get_headers_ext _ _ H2).
Qed.

(** A pass whose attempt fails with a [RequestException] before the last
    one: the request and the error record, then the sleep. *)
Lemma http_loop_failed_pass n attempt σ e :
  post E (clock σ) = Raised e → is_RequestException e = true →
  attempt < max_retries σ →
  ∃ σ1, http_loop E (S n) attempt l σ
        = match sleep E (inject_Z (retry_delay σ)) σ1 with
          | (Ret _, σ2) => http_loop E n (attempt + 1) l σ2
          | (Raise e', σ2) => (Raise e', σ2)
          end
    ∧ server_url σ1 = server_url σ ∧ api_key σ1 = api_key σ
    ∧ connection_type σ1 = connection_type σ ∧ timeout σ1 = timeout σ
    ∧ max_retries σ1 = max_retries σ ∧ retry_delay σ1 = retry_delay σ
    ∧ ws σ1 = ws σ ∧ heap σ1 = heap σ ∧ next_callback σ1 = next_callback σ
    ∧ message_callbacks σ1 = message_callbacks σ
    ∧ trace σ1 = (trace σ ++ [post_effect l σ])%list
    ∧ clock σ1 = S (clock σ).
Proof.
  intros Hp He Hlt. unfold http_loop; fold http_loop.
  unfold http_attempt. munfold. cbn -[sleep http_loop].
  rewrite Hp. cbn -[sleep http_loop]. rewrite He. cbn -[sleep http_loop].
  apply Z.ltb_lt in Hlt. rewrite Hlt.
  eexists. split; [reflexivity|]. cbn. repeat split.
Qed.

(** The same pass when the delay is accepted: the loop goes on. *)
Lemma http_loop_retry n attempt σ e :
  post E (clock σ) = Raised e → is_RequestException e = true →
  attempt < max_retries σ →
  0 ≤ retry_delay σ ≤ time_max →
  ∃ σ2, http_loop E (S n) attempt l σ = http_loop E n (attempt + 1) l σ2
    ∧ server_url σ2 = server_url σ ∧ api_key σ2 = api_key σ
    ∧ connection_type σ2 = connection_type σ ∧ timeout σ2 = timeout σ
    ∧ max_retries σ2 = max_retries σ ∧ retry_delay σ2 = retry_delay σ
    ∧ ws σ2 = ws σ ∧ heap σ2 = heap σ ∧ next_callback σ2 = next_callback σ
    ∧ trace σ2 = (trace σ ++ [post_effect l σ;
                              ESleep (inject_Z (retry_delay σ))])%list
    ∧ clock σ2 = S (S (clock σ))
    ∧ message_callbacks σ2 ⊆ message_callbacks σ.
Proof.
  intros Hp He Hlt Hd.
  destruct (http_loop_failed_pass n attempt σ e Hp He Hlt)
    as (σ1 & -> & ?&?&?&?&?&?&?&?&?& Hcb & Ht & Hc).
  destruct (delay_accepted _ Hd) as [Hf Hn].
  destruct (sleep_facts E (inject_Z (retry_delay σ)) σ1 Hf Hn)
    as (σ2 & -> & ?&?&?&?&?&?&?&?&?& Ht2 & Hc2 & Hsub).
  exists σ2. split; [reflexivity|].
  repeat split; try congruence.
  - rewrite Ht2, Ht. by rewrite <- app_assoc.
  - by rewrite <- Hcb.
Qed.

(** The same pass when [time.sleep] refuses the delay: the exception of
    [time.sleep] leaves the loop, after the one request. *)
Lemma http_loop_sleep_refused n attempt σ e :
  post E (clock σ) = Raised e → is_RequestException e = true →
  attempt < max_retries σ →
  ¬ 0 ≤ retry_delay σ ≤ time_max →
  ∃ σ1 e', http_loop E (S n) attempt l σ = (Raise e', σ1)
    ∧ (exn_type e' = OverflowError ∨ exn_type e' = ValueError)
    ∧ server_url σ1 = server_url σ ∧ api_key σ1 = api_key σ
    ∧ connection_type σ1 = connection_type σ ∧ timeout σ1 = timeout σ
    ∧ max_retries σ1 = max_retries σ ∧ retry_delay σ1 = retry_delay σ
    ∧ ws σ1 = ws σ ∧ heap σ1 = heap σ ∧ next_callback σ1 = next_callback σ
    ∧ message_callbacks σ1 = message_callbacks σ
    ∧ trace σ1 = (trace σ ++ [post_effect l σ])%list.
Proof.
  intros Hp He Hlt Hd.
  destruct (http_loop_failed_pass n attempt σ e Hp He Hlt)
    as (σ1 & -> & ?&?&?&?&?&?&?&?&?& Hcb & Ht & Hc).
  assert (fits_clock (inject_Z (retry_delay σ))
          && Qle_bool 0 (inject_Z (retry_delay σ)) = false) as Hno.
  { apply not_true_is_false. intros Hyes.
    apply andb_true_iff in Hyes as [Hf Hn]. apply Hd.
    unfold fits_clock in Hf. apply andb_true_iff in Hf as [_ Hf].
    apply Qle_bool_iff in Hf, Hn. unfold Qle in *. simpl in *.
    unfold time_max. lia. }
  destruct (sleep_refused E _ σ1 Hno) as (e' & -> & Hty).
  exists σ1, e'. split; [reflexivity|].
  split; [destruct Hty as [[? _]|[? _]]; auto|].
  repeat split; assumption.
Qed.

(** A pass whose attempt is answered: the body is returned at once. *)
Lemma http_loop_answer n attempt σ body :
  post E (clock σ) = Responded body →
  ∃ σ', http_loop E (S n) attempt l σ = (Ret body, σ')
    ∧ server_url σ' = server_url σ ∧ api_key σ' = api_key σ
    ∧ connection_type σ' = connection_type σ ∧ timeout σ' = timeout σ
    ∧ max_retries σ' = max_retries σ ∧ retry_delay σ' = retry_delay σ
    ∧ ws σ' = ws σ ∧ ws_connected σ' = ws_connected σ
    ∧ heap σ' = heap σ ∧ next_callback σ' = next_callback σ
    ∧ message_callbacks σ' = message_callbacks σ
    ∧ events σ' = events σ
    ∧ trace σ' = (trace σ ++ [post_effect l σ])%list
    ∧ clock σ' = S (clock σ).
Proof.
  intros Hp. simpl. unfold http_attempt. munfold. simpl.
  rewrite Hp. simpl. eexists. split; [reflexivity|]. simpl.
  repeat split.
Qed.

(** The last pass, failing with a [RequestException]: the error value. *)
Lemma http_loop_give_up n attempt σ e :
  post E (clock σ) = Raised e → is_RequestException e = true →
  ¬ attempt < max_retries σ →
  ∃ σ', http_loop E (S n) attempt l σ
        = (Ret (error_dict (http_error_text (max_retries σ + 1) e)), σ')
    ∧ server_url σ' = server_url σ ∧ api_key σ' = api_key σ
    ∧ connection_type σ' = connection_type σ ∧ timeout σ' = timeout σ
    ∧ max_retries σ' = max_retries σ ∧ retry_delay σ' = retry_delay σ
    ∧ ws σ' = ws σ ∧ ws_connected σ' = ws_connected σ
    ∧ heap σ' = heap σ ∧ next_callback σ' = next_callback σ
    ∧ message_callbacks σ' = message_callbacks σ
    ∧ events σ' = events σ
    ∧ trace σ' = (trace σ ++ [post_effect l σ])%list
    ∧ clock σ' = S (clock σ).
Proof.
  intros Hp He Hge. simpl. unfold http_attempt. munfold. simpl.
  rewrite Hp. simpl. rewrite He. simpl.
  apply Z.ltb_nlt in Hge. rewrite Hge.
  eexists. split; [reflexivity|]. simpl. repeat split.
Qed.

(** A pass whose attempt raises anything else: the exception goes up. *)
Lemma http_loop_propagate n attempt σ e :
  post E (clock σ) = Raised e → is_RequestException e = false →
  ∃ σ', http_loop E (S n) attempt l σ = (Raise e, σ')
    ∧ server_url σ' = server_url σ ∧ api_key σ' = api_key σ
    ∧ connection_type σ' = connection_type σ ∧ timeout σ' = timeout σ
    ∧ max_retries σ' = max_retries σ ∧ retry_delay σ' = retry_delay σ
    ∧ heap σ' = heap σ
    ∧ trace σ' = (trace σ ++ [post_effect l σ])%list.
Proof.
  intros Hp He. simpl. unfold http_attempt. munfold. simpl.
  rewrite Hp. simpl. rewrite He. simpl.
  eexists. split; [reflexivity|]. simpl. repeat split.
Qed.




End Http.

(** ** The start of [send_message] *)

Lemma stamp_facts E l σ :
  ∃ σ0, stamp E l σ = (Ret (), σ0)
    ∧ server_url σ0 = server_url σ ∧ api_key σ0 = api_key σ
    ∧ connection_type σ0 = connection_type σ ∧ timeout σ0 = timeout σ
    ∧ max_retries σ0 = max_retries σ ∧ retry_delay σ0 = retry_delay σ
    ∧ ws σ0 = ws σ ∧ ws_connected σ0 = ws_connected σ
    ∧ message_callbacks σ0 = message_callbacks σ
    ∧ events σ0 = events σ ∧ next_callback σ0 = next_callback σ
    ∧ connection_status σ0 = connection_status σ
    ∧ trace σ0 = trace σ
    ∧ heap σ0 = (if truthy_opt (dict_get "id" (heap σ !!! l)) then heap σ
                 else <[l := dict_set "id" (JStr (uuid4 E (clock σ)))
                               (heap σ !!! l)]> (heap σ))
    ∧ clock σ0 = (if truthy_opt (dict_get "id" (heap σ !!! l)) then clock σ
                  else S (clock σ)).
Proof.
  unfold stamp, assign_id. munfold. simpl.
  destruct (truthy_opt (dict_get "id" (heap σ !!! l))); simpl;
    (eexists; split; [reflexivity|]; simpl; repeat split).
Qed.



Lemma send_message_http E l σ σ0 :
  connection_type σ ≠ "WebSocket" →
  stamp E l σ = (Ret (), σ0) →
  send_message E l σ
  = http_loop E (Z.to_nat (max_retries σ0 + 1)) 0 l σ0.
Proof.
  intros Hct Hst.
  destruct (stamp_facts E l σ) as (σ0' & Hst' & _ & _ & Hc & _).
  rewrite Hst in Hst'. injection Hst' as <-.
  unfold send_message. munfold. rewrite Hst. simpl.
  rewrite Hc. apply String.eqb_neq in Hct. by rewrite Hct.
Qed.




(** ** Connecting *)

Section Connecting.

Variable E : environment.

Lemma connect_websocket_other σ :
  connection_type σ ≠ "WebSocket" → connect_websocket E σ = (Ret (), σ).
Proof.
  intros Hct. unfold connect_websocket. munfold. simpl.
  apply String.eqb_neq in Hct. by rewrite Hct.
Qed.

Lemma connect_websocket_facts σ :
  connection_type σ = "WebSocket" →
  let app := {| app_url := ws_url_of (server_url σ);
                app_header := get_headers σ |} in
  ∃ σ', connect_websocket E σ = (Ret (), σ')
    ∧ server_url σ' = server_url σ ∧ api_key σ' = api_key σ
    ∧ connection_type σ' = connection_type σ ∧ timeout σ' = timeout σ
    ∧ max_retries σ' = max_retries σ ∧ retry_delay σ' = retry_delay σ
    ∧ ws σ' = Some app ∧ heap σ' = heap σ
    ∧ next_callback σ' = next_callback σ
    ∧ trace σ' = (trace σ ++ [EThreadStart app])%list
    ∧ clock σ' = S (clock σ)
    ∧ message_callbacks σ' ⊆ message_callbacks σ.
Proof.
  intros Hct app. unfold connect_websocket. munfold. simpl.
  rewrite Hct. simpl. rewrite block_eq.
  match goal with |- context [run_events E ?evs ?s] =>
    destruct (run_events_untouched E evs s) as [Hu Hs];
    exists (run_events E evs s) end.
  split; [reflexivity|].
  destruct Hu as (?&?&?&?&?&?&?&?&?&?&?). simpl in *.
  repeat split; first [assumption | congruence].
Qed.

Lemma wait_for_connection_S n σ :
  wait_for_connection E (S n) σ
  = if ws_connected σ then (Ret (), σ)
    else match sleep E (1 # 2) σ with
         | (Ret _, σ1) => wait_for_connection E n σ1
         | (Raise e, σ1) => (Raise e, σ1)
         end.
Proof. simpl. munfold. by destruct (ws_connected σ). Qed.

(** The polling loop sleeps at most [n] times, and all [n] times when it
    ends without a connection. *)
Lemma wait_for_connection_facts n : ∀ σ,
  ∃ σ' (k : nat), wait_for_connection E n σ = (Ret (), σ')
    ∧ (k ≤ n)%nat
    ∧ (ws_connected σ' = false → k = n)
    ∧ server_url σ' = server_url σ ∧ api_key σ' = api_key σ
    ∧ connection_type σ' = connection_type σ ∧ timeout σ' = timeout σ
    ∧ max_retries σ' = max_retries σ ∧ retry_delay σ' = retry_delay σ
    ∧ ws σ' = ws σ ∧ heap σ' = heap σ
    ∧ next_callback σ' = next_callback σ
    ∧ trace σ' = (trace σ ++ replicate k (ESleep (1 # 2)))%list
    ∧ clock σ' = (clock σ + k)%nat
    ∧ message_callbacks σ' ⊆ message_callbacks σ.
Proof.
  induction n as [|n IH]; intros σ.
  - exists σ, O. simpl. split; [reflexivity|].
    rewrite app_nil_r, Nat.add_0_r. repeat split; done.
  - rewrite wait_for_connection_S. destruct (ws_connected σ) eqn:Hc.
    + exists σ, O. simpl. split; [reflexivity|].
      rewrite app_nil_r, Nat.add_0_r. repeat split; try done; try lia.
      intros Hoff. congruence.
    + destruct (sleep_facts E (1 # 2) σ eq_refl eq_refl)
        as (σ1 & Hs & ?&?&?&?&?&?&?&?&?& Ht1 & Hc1 & Hsub1).
      rewrite Hs.
      destruct (IH σ1) as (σ' & k & Hw & Hk & Hf &?&?&?&?&?&?&?&?&?& Ht' & Hc' & Hsub').
      rewrite Hw. exists σ', (S k). split; [reflexivity|].
      split; [lia|]. split; [intros Hn; f_equal; auto|].
      repeat split; try congruence.
      * rewrite Ht', Ht1. by rewrite <- app_assoc.
      * lia.
      * by etrans.
Qed.

Lemma ensure_connected_eq σ :
  ensure_connected E σ
  = if ws_connected σ then (Ret (), σ)
    else match connect_websocket E σ with
         | (Ret _, σ1) => wait_for_connection E 10 σ1
         | (Raise e, σ1) => (Raise e, σ1)
         end.
Proof. unfold ensure_connected. munfold. by destruct (ws_connected σ). Qed.

Lemma ensure_connected_already σ :
  ws_connected σ = true → ensure_connected E σ = (Ret (), σ).
Proof. intros Hc. by rewrite ensure_connected_eq, Hc. Qed.

Lemma ensure_connected_facts σ :
  connection_type σ = "WebSocket" → ws_connected σ = false →
  let app := {| app_url := ws_url_of (server_url σ);
                app_header := get_headers σ |} in
  ∃ σ' (k : nat), ensure_connected E σ = (Ret (), σ')
    ∧ (k ≤ 10)%nat
    ∧ (ws_connected σ' = false → k = 10%nat)
    ∧ server_url σ' = server_url σ ∧ api_key σ' = api_key σ
    ∧ connection_type σ' = connection_type σ ∧ timeout σ' = timeout σ
    ∧ max_retries σ' = max_retries σ ∧ retry_delay σ' = retry_delay σ
    ∧ ws σ' = Some app ∧ heap σ' = heap σ
    ∧ next_callback σ' = next_callback σ
    ∧ trace σ' = (trace σ ++ EThreadStart app
                    :: replicate k (ESleep (1 # 2)))%list
    ∧ message_callbacks σ' ⊆ message_callbacks σ.
Proof.
  intros Hct Hc app. rewrite ensure_connected_eq, Hc.
  destruct (connect_websocket_facts σ Hct)
    as (σ1 & Hcw & ?&?&?&?&?&?& Hws &?&?& Ht1 & Hc1 & Hsub1).
  rewrite Hcw.
  destruct (wait_for_connection_facts 10 σ1)
    as (σ' & k & Hw & Hk & Hf &?&?&?&?&?&?& Hws' &?&?& Ht' & Hc' & Hsub').
  rewrite Hw. exists σ', k. split; [reflexivity|].
  split; [exact Hk|]. split; [exact Hf|]. subst app.
  repeat split; try congruence.
  - rewrite Ht', Ht1. by rewrite <- app_assoc.
  - by etrans.
Qed.

End Connecting.

(** C8: a WebSocket call made while [ws_connected] is false calls
    [connect_websocket] once and then tests the flag at most ten times,
    half a second apart; if the flag is still false after that, the call
    has slept ten times and returns the error value "Failed to connect to
    WebSocket" without sending, without waiting and without registering a
    callback. *)
Theorem websocket_connect_failure E l σ :
  connection_type σ = "WebSocket" →
  ws_connected σ = false →
  ∃ σ0 σ1 (k : nat),
    stamp E l σ = (Ret (), σ0)
    ∧ ensure_connected E σ0 = (Ret (), σ1)
    ∧ (k ≤ 10)%nat
    ∧ trace σ1 = (trace σ ++
                  EThreadStart {| app_url := ws_url_of (server_url σ);
                                  app_header := get_headers σ |}
                  :: replicate k (ESleep (1 # 2)))%list
    ∧ (ws_connected σ1 = false →
       k = 10%nat
       ∧ ∃ σ', send_message E l σ
               = (Ret (JDict [("error",
                               JStr "Failed to connect to WebSocket")]), σ')
           ∧ trace σ' = trace σ1
           ∧ next_callback σ' = next_callback σ
           ∧ message_callbacks σ' ⊆ message_callbacks σ
           ∧ events σ' = events σ1).
Proof.
  intros Hct Hc.
  destruct (stamp_facts E l σ)
    as (σ0 & Hst & Hu & Ha & Hc0 & Hto & Hmr & Hd & Hws & Hwc & Hcb & Hev
        & Hnc & _ & Ht & _ & _).
  destruct (ensure_connected_facts E σ0) as
    (σ1 & k & Hen & Hk & Hf & Hu1 & Ha1 &?&?&?&?&?&?& Hnc1 & Ht1 & Hsub1).
  { congruence. }
  { congruence. }
  exists σ0, σ1, k. split; [exact Hst|]. split; [exact Hen|].
  split; [exact Hk|]. split.
  { rewrite Ht1, Ht, Hu. by rewrite (get_headers_ext σ σ0 Ha). }
  intros Hoff. split; [by apply Hf|].
  unfold send_message. munfold. rewrite Hst. simpl. rewrite Hc0, Hct. simpl.
  unfold websocket_send. munfold. rewrite Hen. simpl. rewrite Hoff. simpl.
  eexists. split; [reflexivity|]. simpl.
  split; [reflexivity|]. split; [congruence|]. split; [|reflexivity].
  by rewrite <- Hcb.
Qed.

(** ** The exchange of a WebSocket call *)

Section Await.

Variable E : environment.

(** The event is set when the wait begins: the reply is returned. *)
Lemma await_reply_set cb σa data :
  events σa !! cb = Some data →
  await_reply E cb σa
  = (Ret data, set_trace (trace σa ++ [EWait (timeout σa)]) σa).
Proof.
  intros Hev. unfold await_reply, event_wait. munfold. cbn.
  rewrite Hev. rewrite bool_decide_eq_true_2 by (by eexists). cbn.
  by rewrite Hev.
Qed.

(** The event is unset and the timeout is above [time_max]. *)
Lemma await_reply_overflow cb σa :
  events σa !! cb = None →
  time_max < timeout σa →
  await_reply E cb σa
  = (Raise (Exn OverflowError "timeout value is too large"),
     set_trace (trace σa ++ [EWait (timeout σa)]) σa).
Proof.
  intros Hev Hbig. unfold await_reply, event_wait. munfold. cbn.
  rewrite Hev. rewrite bool_decide_eq_false_2 by (by intros [? ?]). cbn.
  apply Z.ltb_lt in Hbig. by rewrite Hbig.
Qed.

(** The event is unset and the timeout is not positive: no waiting. *)
Lemma await_reply_at_once cb σa :
  events σa !! cb = None →
  timeout σa ≤ 0 →
  await_reply E cb σa
  = (Ret (JDict [("error", JStr "Request timed out")]),
     set_log (log σa ++ [timed_out])
       (set_trace (trace σa ++ [EWait (timeout σa)]) σa)).
Proof.
  intros Hev Hsmall. unfold await_reply, event_wait. munfold. cbn.
  rewrite Hev. rewrite bool_decide_eq_false_2 by (by intros [? ?]). cbn.
  assert ((time_max <? timeout σa) = false) as ->
    by (apply Z.ltb_ge; unfold time_max; lia).
  apply Z.leb_le in Hsmall. by rewrite Hsmall.
Qed.

(** The event is unset and the timeout is in range: the caller blocks,
    and the result is read off the state the wait ends in. *)
Lemma await_reply_blocks cb σa :
  events σa !! cb = None →
  0 < timeout σa ≤ time_max →
  await_reply E cb σa
  = let σb := run_events E (background E (clock σa))
                (set_clock (S (clock σa))
                   (set_trace (trace σa ++ [EWait (timeout σa)]) σa)) in
    match events σb !! cb with
    | Some data => (Ret data, σb)
    | None => (Ret (JDict [("error", JStr "Request timed out")]),
               set_log (log σb ++ [timed_out]) σb)
    end.
Proof.
  intros Hev [Hpos Hmax]. unfold await_reply, event_wait. munfold.
  cbn -[run_events].
  rewrite Hev. rewrite bool_decide_eq_false_2 by (by intros [? ?]).
  cbn -[run_events].
  assert ((time_max <? timeout σa) = false) as -> by by apply Z.ltb_ge.
  assert ((timeout σa <=? 0) = false) as -> by (apply Z.leb_gt; lia).
  rewrite block_eq. cbn -[run_events].
  match goal with |- context [run_events E ?evs ?s] =>
    generalize (run_events E evs s) end.
  intros σb. destruct (events σb !! cb) as [data|] eqn:Hb.
  - rewrite bool_decide_eq_true_2 by (by eexists). cbn. by rewrite Hb.
  - rewrite bool_decide_eq_false_2 by (by intros [? ?]). reflexivity.
Qed.

(** What the end of a call leaves in place, on every path: one [wait]
    is recorded, the table can only lose entries, and what is raised is
    the [OverflowError] of a timeout out of range. *)
Lemma await_reply_facts cb σa :
  server_url (snd (await_reply E cb σa)) = server_url σa
  ∧ api_key (snd (await_reply E cb σa)) = api_key σa
  ∧ connection_type (snd (await_reply E cb σa)) = connection_type σa
  ∧ timeout (snd (await_reply E cb σa)) = timeout σa
  ∧ max_retries (snd (await_reply E cb σa)) = max_retries σa
  ∧ retry_delay (snd (await_reply E cb σa)) = retry_delay σa
  ∧ ws (snd (await_reply E cb σa)) = ws σa
  ∧ heap (snd (await_reply E cb σa)) = heap σa
  ∧ next_callback (snd (await_reply E cb σa)) = next_callback σa
  ∧ trace (snd (await_reply E cb σa))
    = (trace σa ++ [EWait (timeout σa)])%list
  ∧ message_callbacks (snd (await_reply E cb σa)) ⊆ message_callbacks σa
  ∧ (∀ e, fst (await_reply E cb σa) = Raise e →
          exn_type e = OverflowError ∧ time_max < timeout σa).
Proof.
  destruct (events σa !! cb) as [data|] eqn:Hev.
  { rewrite (await_reply_set cb σa data Hev). cbn.
    repeat split; try reflexivity; intros; discriminate. }
  destruct (decide (time_max < timeout σa)) as [Hbig|Hok].
  { rewrite (await_reply_overflow cb σa Hev Hbig). cbn.
    repeat split; try reflexivity; intros; simplify_eq; by cbn. }
  destruct (decide (timeout σa ≤ 0)) as [Hsmall|Hpos].
  { rewrite (await_reply_at_once cb σa Hev Hsmall). cbn.
    repeat split; try reflexivity; intros; discriminate. }
  rewrite (await_reply_blocks cb σa Hev) by lia. cbv zeta.
  match goal with |- context [run_events E ?evs ?s] =>
    destruct (run_events_untouched E evs s) as [Hu Hs];
    generalize dependent (run_events E evs s) end.
  intros σb (?&?&?&?&?&?&?&?&?& Ht &?) Hs. cbn in *.
  destruct (events σb !! cb); cbn; repeat split; try assumption;
    intros; discriminate.
Qed.

Variable l : nat.

(** How [websocket_call] gets to the wait.  It raises before anything is
    sent when the id cannot be a key or there is no [ws]; it raises what
    [ws.send] raised; otherwise the callback is registered, the frame is
    sent, the WebSocket thread runs while the send is under way, and the
    call ends as [await_reply] does. *)
Lemma websocket_call_cases σ :
  (∃ e σx, websocket_call E l σ = (Raise e, σx)
     ∧ (exn_type e = KeyError ∨ exn_type e = TypeError
        ∨ exn_type e = AttributeError)
     ∧ (dict_get "id" (heap σ !!! l) = None
        ∨ (∃ idv, dict_get "id" (heap σ !!! l) = Some idv
                  ∧ hash_key idv = None)
        ∨ ws σ = None)
     ∧ server_url σx = server_url σ ∧ api_key σx = api_key σ
     ∧ connection_type σx = connection_type σ ∧ timeout σx = timeout σ
     ∧ max_retries σx = max_retries σ ∧ retry_delay σx = retry_delay σ
     ∧ ws σx = ws σ ∧ heap σx = heap σ
     ∧ trace σx = trace σ
     ∧ (message_callbacks σx = message_callbacks σ
        ∨ ∃ k, message_callbacks σx
               = <[k := next_callback σ]> (message_callbacks σ)))
  ∨ (∃ e σx idv k, websocket_call E l σ = (Raise e, σx)
       ∧ dict_get "id" (heap σ !!! l) = Some idv ∧ hash_key idv = Some k
       ∧ ws_send E (clock σ) = Some e
       ∧ server_url σx = server_url σ ∧ api_key σx = api_key σ
       ∧ connection_type σx = connection_type σ ∧ timeout σx = timeout σ
       ∧ max_retries σx = max_retries σ ∧ retry_delay σx = retry_delay σ
       ∧ ws σx = ws σ ∧ heap σx = heap σ
       ∧ trace σx = (trace σ ++
                     [EWsSend (json_dumps E (JDict (heap σ !!! l)))])%list
       ∧ message_callbacks σx
         = <[k := next_callback σ]> (message_callbacks σ))
  ∨ (∃ σs idv k,
       dict_get "id" (heap σ !!! l) = Some idv ∧ hash_key idv = Some k
       ∧ is_Some (ws σ) ∧ ws_send E (clock σ) = None
       ∧ websocket_call E l σ
         = await_reply E (next_callback σ)
             (run_events E (background E (S (clock σ))) σs)
       ∧ server_url σs = server_url σ ∧ api_key σs = api_key σ
       ∧ connection_type σs = connection_type σ ∧ timeout σs = timeout σ
       ∧ max_retries σs = max_retries σ ∧ retry_delay σs = retry_delay σ
       ∧ ws σs = ws σ ∧ heap σs = heap σ
       ∧ events σs = events σ
       ∧ next_callback σs = S (next_callback σ)
       ∧ trace σs = (trace σ ++
                     [EWsSend (json_dumps E (JDict (heap σ !!! l)))])%list
       ∧ clock σs = S (S (clock σ))
       ∧ message_callbacks σs
         = <[k := next_callback σ]> (message_callbacks σ)).
Proof.
  unfold websocket_call, hash_or_raise, ws_send_frame.
  fold (await_reply E (next_callback σ)).
  munfold. cbn -[run_events await_reply event_wait].
  destruct (dict_get "id" (heap σ !!! l)) as [idv|];
    cbn -[run_events await_reply event_wait].
  2:{ left. do 2 eexists. split; [reflexivity|]. cbn.
      split; [auto|]. split; [auto|].
      repeat (split; [reflexivity|]). by left. }
  destruct (hash_key idv) as [k|] eqn:Hk;
    cbn -[run_events await_reply event_wait].
  2:{ left. do 2 eexists. split; [reflexivity|]. cbn.
      split; [auto|]. split; [right; left; by exists idv|].
      repeat (split; [reflexivity|]). by left. }
  destruct (ws σ) as [app|] eqn:Hws;
    cbn -[run_events await_reply event_wait].
  2:{ left. do 2 eexists. split; [reflexivity|]. cbn.
      split; [auto|]. split; [auto|].
      repeat (split; [by rewrite ?Hws|]).
      right. by exists k. }
  destruct (ws_send E (clock σ)) as [e|] eqn:Hs;
    cbn -[run_events await_reply event_wait].
  { right. left. exists e. eexists. exists idv, k.
    split; [reflexivity|]. cbn. repeat split; by rewrite ?Hws. }
  right. right. eexists. exists idv, k.
  split; [reflexivity|]. split; [exact Hk|]. split; [by eexists|].
  split; [reflexivity|]. split; [reflexivity|]. cbn.
  repeat split; by rewrite ?Hws.
Qed.

End Await.

(** ** What a call puts on the wire *)

Section Wire.

Variable E : environment.
Variable l : nat.

Lemma sends_only_refl σ : sends_only E l σ σ.
Proof.
  repeat split. exists []. split; [by rewrite app_nil_r | constructor].
Qed.

Lemma sends_only_trans σ1 σ2 σ3 :
  sends_only E l σ1 σ2 → sends_only E l σ2 σ3 → sends_only E l σ1 σ3.
Proof.
  intros (?&?&?&?&?&?& Hh1 & new1 & Ht1 & Hf1)
         (?&?&?&?&?&?& Hh2 & new2 & Ht2 & Hf2).
  repeat split; try congruence.
  exists (new1 ++ new2)%list. split.
  - rewrite Ht2, Ht1. by rewrite <- app_assoc.
  - apply Forall_app. split; [exact Hf1|]. by rewrite <- Hh1.
Qed.

(** A step that writes neither configuration nor heap and appends [new]
    to the trace. *)
Lemma sends_only_intro σ σ' new :
  server_url σ' = server_url σ → api_key σ' = api_key σ →
  connection_type σ' = connection_type σ → timeout σ' = timeout σ →
  max_retries σ' = max_retries σ → retry_delay σ' = retry_delay σ →
  heap σ' = heap σ →
  trace σ' = (trace σ ++ new)%list →
  Forall (carries E (heap σ !!! l)) new →
  sends_only E l σ σ'.
Proof. intros. repeat split; try assumption. by exists new. Qed.

Lemma websocket_call_sends : keeps (sends_only E l) (websocket_call E l).
Proof.
  intros σ.
  destruct (websocket_call_cases E l σ)
    as [(e & σx & -> & _ & _ & ?&?&?&?&?&?&?&?& Ht & _)
       |[(e & σx & idv & k & -> & _ & _ & _ & ?&?&?&?&?&?&?&?& Ht & _)
        |(σs & idv & k & _ & _ & _ & _ & -> & ?&?&?&?&?&?&?& Hh & _ & _
          & Ht & _ & _)]]; cbn [snd].
  - apply (sends_only_intro _ _ []); try assumption; [|constructor].
    by rewrite app_nil_r.
  - apply (sends_only_intro _ _
             [EWsSend (json_dumps E (JDict (heap σ !!! l)))]);
      try assumption.
    by repeat constructor.
  - match goal with |- context [run_events E ?evs ?s] =>
      destruct (run_events_untouched E evs s) as [Hu _];
      remember (run_events E evs s) as σa eqn:Hσa; clear Hσa end.
    destruct Hu as (?&?&?&?&?&?&?&?&?& Htr &?).
    destruct (await_reply_facts E (next_callback σ) σa)
      as (?&?&?&?&?&?&?&?&?& Hta &?&?).
    apply (sends_only_intro _ _
             [EWsSend (json_dumps E (JDict (heap σ !!! l)));
              EWait (timeout σ)]); try congruence.
    + rewrite Hta, Htr, Ht. rewrite <- app_assoc. simpl.
      replace (timeout σa) with (timeout σ) by congruence. reflexivity.
    + by repeat constructor.
Qed.

Lemma ensure_connected_sends : keeps (sends_only E l) (ensure_connected E).
Proof.
  intros σ. destruct (ws_connected σ) eqn:Hc.
  - rewrite ensure_connected_already by done. apply sends_only_refl.
  - rewrite ensure_connected_eq, Hc.
    destruct (String.eqb_spec (connection_type σ) "WebSocket") as [Hct|Hct].
    + destruct (connect_websocket_facts E σ Hct)
        as (σ1 & -> & ?&?&?&?&?&?&?&?&?& Ht1 &?&?).
      destruct (wait_for_connection_facts E 10 σ1)
        as (σ' & k & -> & _ & _ &?&?&?&?&?&?&?&?&?& Ht' &?&?).
      simpl. eapply (sends_only_intro _ _ (_ :: _)); try congruence.
      * rewrite Ht', Ht1. rewrite <- app_assoc. reflexivity.
      * constructor; [done|]. apply Forall_forall.
        intros e He. apply elem_of_replicate in He as [-> _]. done.
    + rewrite connect_websocket_other by done.
      destruct (wait_for_connection_facts E 10 σ)
        as (σ' & k & -> & _ & _ &?&?&?&?&?&?&?&?&?& Ht' &?&?).
      simpl. eapply (sends_only_intro _ _ (replicate k _)); try congruence.
      * exact Ht'.
      * apply Forall_forall.
        intros e He. apply elem_of_replicate in He as [-> _]. done.
Qed.

Lemma websocket_send_sends : keeps (sends_only E l) (websocket_send E l).
Proof.
  intros σ. unfold websocket_send. munfold.
  pose proof (ensure_connected_sends σ) as H1.
  destruct (ensure_connected E σ) as [[[]|e] σ1]; simpl in *; [|exact H1].
  destruct (ws_connected σ1); simpl.
  - eapply sends_only_trans; [exact H1|]. apply websocket_call_sends.
  - eapply sends_only_trans; [exact H1|].
    apply (sends_only_intro _ _ []); simpl; try done. by rewrite app_nil_r.
Qed.

Lemma http_loop_sends n : ∀ attempt, keeps (sends_only E l) (http_loop E n attempt l).
Proof.
  induction n as [|n IH]; intros attempt σ.
  - apply sends_only_refl.
  - destruct (post E (clock σ)) as [body|e] eqn:Hp.
    + destruct (http_loop_answer E l n attempt σ body Hp)
        as (σ' & -> &?&?&?&?&?&?&?&?&?&?&?&?& Ht &?).
      simpl. apply (sends_only_intro _ _ [post_effect l σ]); try assumption.
      by repeat constructor.
    + destruct (is_RequestException e) eqn:He.
      * destruct (decide (attempt < max_retries σ)) as [Hlt|Hge].
        -- destruct (decide (0 ≤ retry_delay σ ≤ time_max)) as [Hd|Hd].
           ++ destruct (http_loop_retry E l n attempt σ e Hp He Hlt Hd)
                as (σ2 & -> &?&?&?&?&?&?&?&?&?& Ht &?&?).
              eapply sends_only_trans; [|apply IH].
              apply (sends_only_intro _ _
                       [post_effect l σ; ESleep (inject_Z (retry_delay σ))]);
                try assumption.
              by repeat constructor.
           ++ destruct (http_loop_sleep_refused E l n attempt σ e Hp He Hlt Hd)
                as (σ1 & e' & -> & _ &?&?&?&?&?&?&?&?&?&?& Ht).
              simpl. apply (sends_only_intro _ _ [post_effect l σ]);
                try assumption.
              by repeat constructor.
        -- destruct (http_loop_give_up E l n attempt σ e Hp He Hge)
             as (σ' & -> &?&?&?&?&?&?&?&?&?&?&?&?& Ht &?).
           simpl. apply (sends_only_intro _ _ [post_effect l σ]);
             try assumption.
           by repeat constructor.
      * destruct (http_loop_propagate E l n attempt σ e Hp He)
          as (σ' & -> &?&?&?&?&?&?&?& Ht).
        simpl. apply (sends_only_intro _ _ [post_effect l σ]);
          try assumption.
        by repeat constructor.
Qed.

(** After the id is assigned, [send_message] leaves the heap alone and
    puts nothing but the message at [l] on the wire. *)
Lemma send_message_sends σ :
  ∃ σ0, stamp E l σ = (Ret (), σ0)
    ∧ sends_only E l σ0 (snd (send_message E l σ)).
Proof.
  destruct (stamp_facts E l σ) as (σ0 & Hst & _).
  exists σ0. split; [exact Hst|].
  unfold send_message. munfold. rewrite Hst. simpl.
  destruct (String.eqb (connection_type σ0) "WebSocket").
  - apply websocket_send_sends.
  - unfold http_send. munfold. simpl. apply http_loop_sends.
Qed.

End Wire.

(** ** The id written into the caller's dictionary *)

Lemma send_message_stamps E l σ m :
  heap σ !! l = Some m →
  truthy_opt (dict_get "id" m) = false →
  heap (snd (send_message E l σ))
  = <[l := dict_set "id" (JStr (uuid4 E (clock σ))) m]> (heap σ)
  ∧ ∃ new, trace (snd (send_message E l σ)) = (trace σ ++ new)%list
           ∧ Forall (carries E (dict_set "id" (JStr (uuid4 E (clock σ))) m))
               new.
Proof.
  intros Hl Hid.
  destruct (send_message_sends E l σ) as (σ0 & Hst & Hs).
  destruct (stamp_facts E l σ)
    as (σ0' & Hst' & _ & _ & _ & _ & _ & _ & _ & _ & _ & _ & _ & _
        & Ht & Hh & _).
  rewrite Hst in Hst'. injection Hst' as <-.
  rewrite (lookup_total_correct _ _ _ Hl), Hid in Hh.
  destruct Hs as (_ & _ & _ & _ & _ & _ & Hh' & new & Ht' & Hf).
  split; [by rewrite Hh', Hh|].
  exists new. split; [by rewrite Ht', Ht|].
  by rewrite Hh, lookup_total_insert_eq in Hf.
Qed.

Lemma send_message_keeps_id E l σ m :
  heap σ !! l = Some m →
  truthy_opt (dict_get "id" m) = true →
  heap (snd (send_message E l σ)) = heap σ
  ∧ ∃ new, trace (snd (send_message E l σ)) = (trace σ ++ new)%list
           ∧ Forall (carries E m) new.
Proof.
  intros Hl Hid.
  destruct (send_message_sends E l σ) as (σ0 & Hst & Hs).
  destruct (stamp_facts E l σ)
    as (σ0' & Hst' & _ & _ & _ & _ & _ & _ & _ & _ & _ & _ & _ & _
        & Ht & Hh & _).
  rewrite Hst in Hst'. injection Hst' as <-.
  rewrite (lookup_total_correct _ _ _ Hl), Hid in Hh.
  destruct Hs as (_ & _ & _ & _ & _ & _ & Hh' & new & Ht' & Hf).
  split; [by rewrite Hh', Hh|].
  exists new. split; [by rewrite Ht', Ht|].
  by rewrite Hh, (lookup_total_correct _ _ _ Hl) in Hf.
Qed.

(** C10: when the dictionary passed to [send_message] has no ["id"] or a
    falsy one, [send_message] writes a generated uuid string under ["id"]
    into that same dictionary: after the call the caller's object holds
    the id, no other object changed, and every request or frame sent
    during the call carries this very dictionary, id included. *)
Theorem send_message_assigns_id_in_place E l σ m :
  heap σ !! l = Some m →
  truthy_opt (dict_get "id" m) = false →
  let u := uuid4 E (clock σ) in
  let σ' := snd (send_message E l σ) in
  heap σ' = <[l := dict_set "id" (JStr u) m]> (heap σ)
  ∧ heap σ' !! l = Some (dict_set "id" (JStr u) m)
  ∧ dict_get "id" (dict_set "id" (JStr u) m) = Some (JStr u)
  ∧ (∀ l', l' ≠ l → heap σ' !! l' = heap σ !! l')
  ∧ ∃ new, trace σ' = (trace σ ++ new)%list
           ∧ Forall (carries E (dict_set "id" (JStr u) m)) new.
Proof.
  intros Hl Hid u σ'.
  destruct (send_message_stamps E l σ m Hl Hid) as [Hh Hnew].
  subst σ' u. rewrite Hh.
  split; [reflexivity|]. split; [apply lookup_insert_eq|].
  split; [apply dict_get_set_eq|].
  split; [|exact Hnew].
  intros l' Hne. by apply lookup_insert_ne.
Qed.

(** ** The named operations *)

(** The first effect of a call: the request of the first attempt, or the
    frame. *)
Lemma http_loop_first E l n attempt σ :
  ∃ rest, trace (snd (http_loop E (S n) attempt l σ))
          = (trace σ ++ post_effect l σ :: rest)%list.
Proof.
  destruct (post E (clock σ)) as [body|e] eqn:Hp.
  - destruct (http_loop_answer E l n attempt σ body Hp)
      as (σ' & -> &?&?&?&?&?&?&?&?&?&?&?&?& Ht &?).
    by exists [].
  - destruct (is_RequestException e) eqn:He.
    + destruct (decide (attempt < max_retries σ)) as [Hlt|Hge].
      * destruct (decide (0 ≤ retry_delay σ ≤ time_max)) as [Hd|Hd].
        -- destruct (http_loop_retry E l n attempt σ e Hp He Hlt Hd)
             as (σ2 & -> &?&?&?&?&?&?&?&?&?& Ht &?&?).
           destruct (http_loop_sends E l n (attempt + 1) σ2)
             as (_&_&_&_&_&_&_& new & Ht' & _).
           exists (ESleep (inject_Z (retry_delay σ)) :: new).
           rewrite Ht', Ht. by rewrite <- app_assoc.
        -- destruct (http_loop_sleep_refused E l n attempt σ e Hp He Hlt Hd)
             as (σ1 & e' & -> & _ &?&?&?&?&?&?&?&?&?&?& Ht).
           by exists [].
      * destruct (http_loop_give_up E l n attempt σ e Hp He Hge)
          as (σ' & -> &?&?&?&?&?&?&?&?&?&?&?&?& Ht &?).
        by exists [].
    + destruct (http_loop_propagate E l n attempt σ e Hp He)
        as (σ' & -> &?&?&?&?&?&?&?& Ht).
      by exists [].
Qed.

Lemma websocket_call_first E l σ idv k :
  dict_get "id" (heap σ !!! l) = Some idv →
  hash_key idv = Some k →
  is_Some (ws σ) →
  ∃ rest, trace (snd (websocket_call E l σ))
          = (trace σ ++ EWsSend (json_dumps E (JDict (heap σ !!! l)))
               :: rest)%list.
Proof.
  intros Hid Hk [app Hws].
  destruct (websocket_call_cases E l σ)
    as [(e & σx & _ & _ & Hwhy & _)
       |[(e & σx & idv' & k' & -> & _ & _ & _ & ?&?&?&?&?&?&?&?& Ht & _)
        |(σs & idv' & k' & _ & _ & _ & _ & -> & ?&?&?&?&?&?&?& Hh & _ & _
          & Ht & _ & _)]]; cbn [snd].
  - destruct Hwhy as [Hn|[(idv' & Hi & Hn)|Hn]]; congruence.
  - by exists [].
  - match goal with |- context [run_events E ?evs ?s] =>
      destruct (run_events_untouched E evs s) as [Hu _];
      remember (run_events E evs s) as σa eqn:Hσa; clear Hσa end.
    destruct Hu as (?&?&?&?&?&?&?&?&?& Htr &?).
    destruct (await_reply_facts E (next_callback σ) σa)
      as (?&?&?&?&?&?&?&?&?& Hta &?&?).
    exists [EWait (timeout σa)].
    rewrite Hta, Htr, Ht. by rewrite <- app_assoc.
Qed.

Lemma new_dict_builds E name data :
  builds E (new_dict (operation_message name data) ≫= send_message E)
    name data.
Proof.
  intros σ l m m'.
  assert (heap σ !! l = None) as Hfresh.
  { apply not_elem_of_dom. apply is_fresh. }
  split; [exact Hfresh|]. split; [reflexivity|].
  set (σ1 := set_heap (<[l := m]> (heap σ)) σ).
  change ((new_dict (operation_message name data) ≫= send_message E) σ)
    with (send_message E l σ1).
  destruct (send_message_stamps E l σ1 m) as [Hh (new & Ht & Hnew)].
  { apply lookup_insert_eq. }
  { reflexivity. }
  split; [etrans; [exact Hh|]; apply insert_insert_eq|].
  exists new. split; [exact Ht|]. split; [exact Hnew|].
  destruct (stamp_facts E l σ1)
    as (σ0 & Hst & Hu & Ha & Hct0 & Hto & Hmr & _ & Hws0 & Hc0 & _ & _ & _ & _
        & Ht0 & Hh0 & _).
  assert (heap σ0 !!! l = m') as Hm'.
  { rewrite Hh0. subst σ1. cbn [heap set_heap].
    rewrite !lookup_total_insert_eq.
    change (truthy_opt (dict_get "id" m)) with false. cbv iota.
    by rewrite lookup_total_insert_eq. }
  split.
  - intros Hct Hr.
    rewrite (send_message_http E l σ1 σ0 Hct Hst) in Ht.
    replace (Z.to_nat (max_retries σ0 + 1))
      with (S (Z.to_nat (max_retries σ0))) in Ht
      by (rewrite Hmr; subst σ1; cbn; lia).
    destruct (http_loop_first E l (Z.to_nat (max_retries σ0)) 0 σ0)
      as (rest & Hfirst).
    rewrite Hfirst, Ht0 in Ht. apply app_inv_head in Ht. subst new.
    exists rest. unfold post_effect.
    by rewrite Hu, Hto, (get_headers_ext σ1 σ0 Ha), Hm'.
  - intros Hct Hc Hws.
    assert (send_message E l σ1 = websocket_call E l σ0) as Hsend.
    { unfold send_message. munfold. rewrite Hst. cbn [fst snd].
      rewrite Hct0. subst σ1. cbn [connection_type set_heap].
      rewrite Hct. cbn. unfold websocket_send. munfold.
      rewrite ensure_connected_already by (by rewrite Hc0).
      cbn [fst snd]. rewrite Hc0. cbn [ws_connected set_heap].
      by rewrite Hc. }
    rewrite Hsend in Ht.
    destruct (websocket_call_first E l σ0 (JStr (uuid4 E (clock σ)))
                (KStr (uuid4 E (clock σ)))) as (rest & Hfirst).
    { by rewrite Hm'. }
    { reflexivity. }
    { by rewrite Hws0. }
    rewrite Hfirst, Ht0 in Ht. apply app_inv_head in Ht. subst new.
    exists rest. by rewrite Hm'.
Qed.

(** C7: each named operation builds the message of its row and returns
    what [send_message] returns for it: [list_workflows] and
    [search_workflows] send ["null"] for both [workflowIds] and
    [parameters]; [add_workflow] and [remove_workflow] send the caller's
    id string with [parameters] ["null"]; [execute_workflow] sends the id
    with the [json.dumps] text of the parameter object. *)
Theorem named_operations_payload E :
  builds E (list_workflows E) "listWorkflows"
    (JDict [("operation", JStr "listWorkflows");
            ("workflowIds", JStr "null"); ("parameters", JStr "null")])
  ∧ builds E (search_workflows E) "searchWorkflows"
      (JDict [("operation", JStr "searchWorkflows");
              ("workflowIds", JStr "null"); ("parameters", JStr "null")])
  ∧ (∀ workflow_ids,
       builds E (add_workflow E workflow_ids) "addWorkflow"
         (JDict [("operation", JStr "addWorkflow");
                 ("workflowIds", JStr workflow_ids);
                 ("parameters", JStr "null")]))
  ∧ (∀ workflow_ids,
       builds E (remove_workflow E workflow_ids) "removeWorkflow"
         (JDict [("operation", JStr "removeWorkflow");
                 ("workflowIds", JStr workflow_ids);
                 ("parameters", JStr "null")]))
  ∧ (∀ workflow_id parameters,
       builds E (execute_workflow E workflow_id parameters) "executeWorkflow"
         (JDict [("operation", JStr "executeWorkflow");
                 ("workflowIds", JStr workflow_id);
                 ("parameters", JStr (json_dumps E (JDict parameters)))])).
Proof.
  split; [|split; [|split; [|split]]]; intros; apply new_dict_builds.
Qed.

(** ** Where an exception can come from *)

Section Raising.

Variable E : environment.
Variable l : nat.

(** The HTTP loop raises only what an attempt raised outside the
    [RequestException] family, or what [time.sleep] raised for a
    [retry_delay] it does not accept. *)
Lemma http_loop_raise n : ∀ attempt σ e,
  fst (http_loop E n attempt l σ) = Raise e →
  (∃ k, post E k = Raised e ∧ is_RequestException e = false)
  ∨ ((exn_type e = OverflowError ∨ exn_type e = ValueError)
     ∧ ¬ 0 ≤ retry_delay σ ≤ time_max).
Proof.
  induction n as [|n IH]; intros attempt σ e Hr.
  - discriminate.
  - destruct (post E (clock σ)) as [body|e0] eqn:Hp.
    + destruct (http_loop_answer E l n attempt σ body Hp) as (σ' & Heq & _).
      rewrite Heq in Hr. discriminate.
    + destruct (is_RequestException e0) eqn:He.
      * destruct (decide (attempt < max_retries σ)) as [Hlt|Hge].
        -- destruct (decide (0 ≤ retry_delay σ ≤ time_max)) as [Hd|Hd].
           ++ destruct (http_loop_retry E l n attempt σ e0 Hp He Hlt Hd)
                as (σ2 & Heq & _ & _ & _ & _ & _ & Hd2 & _).
              rewrite Heq in Hr. apply IH in Hr. by rewrite Hd2 in Hr.
           ++ destruct (http_loop_sleep_refused E l n attempt σ e0 Hp He
                          Hlt Hd) as (σ1 & e' & Heq & Hty & _).
              rewrite Heq in Hr. simpl in Hr. injection Hr as <-.
              by right.
        -- destruct (http_loop_give_up E l n attempt σ e0 Hp He Hge)
             as (σ' & Heq & _).
           rewrite Heq in Hr. discriminate.
      * destruct (http_loop_propagate E l n attempt σ e0 Hp He)
          as (σ' & Heq & _).
        rewrite Heq in Hr. simpl in Hr. injection Hr as <-.
        left. by exists (clock σ).
Qed.

Lemma ensure_connected_ret σ : ∃ σ1, ensure_connected E σ = (Ret (), σ1)
  ∧ timeout σ1 = timeout σ.
Proof.
  rewrite ensure_connected_eq. destruct (ws_connected σ); [by eexists|].
  destruct (String.eqb_spec (connection_type σ) "WebSocket") as [Hw|Hw].
  - destruct (connect_websocket_facts E σ Hw)
      as (σ1 & -> & _ & _ & _ & Hto1 & _).
    destruct (wait_for_connection_facts E 10 σ1)
      as (σ2 & k & -> & _ & _ & _ & _ & _ & Hto2 & _).
    eexists. split; [reflexivity|]. congruence.
  - rewrite connect_websocket_other by done.
    destruct (wait_for_connection_facts E 10 σ)
      as (σ2 & k & -> & _ & _ & _ & _ & _ & Hto2 & _).
    eexists. split; [reflexivity|]. congruence.
Qed.

(** [send_message] raises only: what [ws.send] raised; what an HTTP
    attempt raised outside the [RequestException] family; the error of an
    id that cannot be a key or of a missing [ws] object; the
    [OverflowError] of [event.wait] for a [timeout] above [time_max]; the
    [OverflowError] or [ValueError] of [time.sleep] for a [retry_delay]
    that is negative or above [time_max]. *)
Lemma send_message_raise e σ :
  fst (send_message E l σ) = Raise e →
  (∃ k, ws_send E k = Some e)
  ∨ (∃ k, post E k = Raised e ∧ is_RequestException e = false)
  ∨ exn_type e = KeyError ∨ exn_type e = TypeError
  ∨ exn_type e = AttributeError
  ∨ (exn_type e = OverflowError ∧ time_max < timeout σ)
  ∨ ((exn_type e = OverflowError ∨ exn_type e = ValueError)
     ∧ ¬ 0 ≤ retry_delay σ ≤ time_max).
Proof.
  destruct (stamp_facts E l σ)
    as (σ0 & Hst & _ & _ & _ & Hto & _ & Hd & _).
  unfold send_message. munfold. rewrite Hst. cbn [fst snd].
  destruct (String.eqb (connection_type σ0) "WebSocket") eqn:Hct.
  - unfold websocket_send. munfold.
    destruct (ensure_connected_ret σ0) as (σ1 & -> & Hto1).
    destruct (ws_connected σ1); cbn; [|discriminate].
    destruct (websocket_call_cases E l σ1)
      as [(e' & σx & -> & Hty & _)
         |[(e' & σx & idv & k & -> & _ & _ & Hs & _)
          |(σs & idv & k & _ & _ & _ & _ & -> & _ & _ & _ & Htos & _)]];
      cbn [fst].
    + intros [= <-]. destruct Hty as [?|[?|?]]; auto 10.
    + intros [= <-]. left. by eexists.
    + intros Hr.
      match type of Hr with context [run_events E ?evs ?s] =>
        destruct (run_events_untouched E evs s)
          as [(_ & _ & _ & Htoa & _) _];
        destruct (await_reply_facts E (next_callback σ1)
                    (run_events E evs s))
          as (_&_&_&_&_&_&_&_&_&_&_& Hraise)
      end.
      destruct (Hraise e Hr) as [Hty Hbig].
      do 5 right. left. split; [exact Hty|]. congruence.
  - unfold http_send. munfold. cbn [fst snd]. intros Hr.
    apply http_loop_raise in Hr as [Hr|[Hty Hr]].
    + right. left. exact Hr.
    + do 6 right. split; [exact Hty|]. by rewrite <- Hd.
Qed.

End Raising.

(** ** Calls that are never answered *)

Section Unanswered.

Variable E : environment.

(** A registered call stays registered until its callback has run. *)
Lemma dispatch_entry_or_signal ev σ k cb :
  message_callbacks σ !! k = Some cb ∨ is_Some (events σ !! cb) →
  message_callbacks (snd (dispatch E ev σ)) !! k = Some cb
  ∨ is_Some (events (snd (dispatch E ev σ)) !! cb).
Proof.
  intros Hinv.
  destruct ev as [| error | code msg | message]; simpl; try exact Hinv.
  destruct (on_message_cases E message σ)
    as (σ' & -> & _ & _ & _ & Hcases & _). simpl.
  destruct (json_loads E message) as [data|].
  2:{ destruct Hcases as (-> & -> & _). exact Hinv. }
  destruct (reply_key data) as [k'|].
  2:{ destruct Hcases as (-> & -> & _). exact Hinv. }
  destruct (message_callbacks σ !! k') as [cb'|] eqn:Hk'.
  2:{ destruct Hcases as (-> & -> & _). exact Hinv. }
  destruct Hcases as (-> & -> & _).
  destruct Hinv as [Hreg|Hset].
  - destruct (decide (k' = k)) as [->|Hne].
    + right. assert (cb' = cb) as -> by congruence.
      rewrite lookup_insert_eq. by eexists.
    + left. by rewrite lookup_delete_ne.
  - right. destruct (decide (cb' = cb)) as [->|Hne].
    + rewrite lookup_insert_eq. by eexists.
    + by rewrite lookup_insert_ne.
Qed.

Lemma run_events_entry_or_signal evs : ∀ σ k cb,
  message_callbacks σ !! k = Some cb ∨ is_Some (events σ !! cb) →
  message_callbacks (run_events E evs σ) !! k = Some cb
  ∨ is_Some (events (run_events E evs σ) !! cb).
Proof.
  induction evs as [|ev evs IH]; intros σ k cb Hinv; simpl.
  - exact Hinv.
  - apply IH. by apply dispatch_entry_or_signal.
Qed.

(** Without a frame, neither the table nor the signals change. *)
Lemma run_events_no_message evs : ∀ σ,
  Forall not_message evs →
  message_callbacks (run_events E evs σ) = message_callbacks σ
  ∧ events (run_events E evs σ) = events σ.
Proof.
  induction evs as [|ev evs IH]; intros σ Hall; simpl.
  - done.
  - inversion Hall as [|? ? Hev Hrest]; subst.
    destruct (IH (snd (dispatch E ev σ)) Hrest) as [-> ->].
    destruct ev; simpl in *; done.
Qed.

(** A call whose frame was sent, whose [timeout] the wait accepts and
    whose completion signal is still unset when the call is over returns
    the timeout error, and its callback is still in the table. *)
Lemma websocket_call_timeout l σ m idv k app :
  heap σ !! l = Some m →
  dict_get "id" m = Some idv →
  hash_key idv = Some k →
  ws σ = Some app →
  ws_send E (clock σ) = None →
  timeout σ ≤ time_max →
  events (snd (websocket_call E l σ)) !! next_callback σ = None →
  fst (websocket_call E l σ)
  = Ret (JDict [("error", JStr "Request timed out")])
  ∧ message_callbacks (snd (websocket_call E l σ)) !! k
    = Some (next_callback σ).
Proof.
  intros Hl Hid Hk Hws Hsend Hmax.
  rewrite <- (lookup_total_correct _ _ _ Hl) in Hid.
  destruct (websocket_call_cases E l σ)
    as [(e & σx & _ & _ & Hwhy & _)
       |[(e & σx & idv' & k' & _ & _ & _ & Hs & _)
        |(σs & idv' & k' & Hid' & Hk' & _ & _ & -> & _ & _ & _ & Htos & _ & _
          & _ & _ & Hevs & _ & _ & _ & Hcbs)]].
  { destruct Hwhy as [Hn|[(idv' & Hi & Hn)|Hn]]; congruence. }
  { congruence. }
  assert (k' = k) as -> by congruence.
  match goal with |- context [run_events E ?evs ?s] =>
    pose proof (run_events_entry_or_signal evs s k (next_callback σ)) as Ha;
    destruct (run_events_untouched E evs s) as [(_ & _ & _ & Htoa & _) _];
    remember (run_events E evs s) as σa eqn:Hσa; clear Hσa end.
  assert (message_callbacks σs !! k = Some (next_callback σ)) as Hreg
    by (rewrite Hcbs; apply lookup_insert_eq).
  specialize (Ha (or_introl Hreg)).
  destruct (events σa !! next_callback σ) as [data|] eqn:Hev.
  { rewrite (await_reply_set E _ σa data Hev). cbn. congruence. }
  destruct Ha as [Ha|[? ?]]; [|congruence].
  destruct (decide (timeout σa ≤ 0)) as [Hsmall|Hpos].
  { rewrite (await_reply_at_once E _ σa Hev Hsmall). cbn. by intros _. }
  rewrite (await_reply_blocks E _ σa Hev) by lia. cbv zeta.
  match goal with |- context [run_events E ?evs ?s] =>
    pose proof (run_events_entry_or_signal evs s k (next_callback σ)
                  (or_introl Ha)) as Hb;
    remember (run_events E evs s) as σb eqn:Hσb; clear Hσb end.
  destruct (events σb !! next_callback σ) as [data|] eqn:Hevb; cbn.
  - congruence.
  - intros _. split; [reflexivity|].
    destruct Hb as [Hb|[? ?]]; [exact Hb | congruence].
Qed.

End Unanswered.

(** C1 (the code departs from it): a connected client sends
    [sample_message] and no reply arrives during the wait.  The call
    returns the error value "Request timed out", but its callback is still
    registered under the id ["uuid-0"]; when the reply arrives later,
    [on_message] finds that entry, calls the stale callback with the reply
    and only then deletes the entry. *)
Theorem timeout_leaves_callback_registered :
  let r := send_message quiet_env 0 online_state in
  let late := on_message quiet_env (sample_dumps sample_reply) (snd r) in
  fst r = Ret (error_dict "Request timed out")
  ∧ message_callbacks online_state !! KStr "uuid-0" = None
  ∧ message_callbacks (snd r) !! KStr "uuid-0" = Some O
  ∧ events (snd r) !! O = None
  ∧ fst late = Ret ()
  ∧ events (snd late) !! O = Some sample_reply
  ∧ message_callbacks (snd late) !! KStr "uuid-0" = None.
Proof. vm_compute. repeat split. Qed.

(** C5 (the code departs from it): a connected client whose socket has
    gone away calls [send_message]; [ws.send] raises
    [WebSocketConnectionClosedException], nothing catches it, and the
    exception leaves [send_message] instead of an error value. *)
Theorem closed_socket_exception_escapes :
  let r := send_message closed_socket_env 0 online_state in
  connection_type online_state = "WebSocket"
  ∧ ws_connected online_state = true
  ∧ fst r = Raise (Exn WebSocketConnectionClosedException
                     "Connection is already closed.")
  ∧ message_callbacks (snd r) !! KStr "uuid-0" = Some O.
Proof. vm_compute. repeat split. Qed.

(** ** Losing the connection *)

(** C2, as stated, fails: after a close event the call waiting in
    [waiting_state] is still registered and its signal is still unset. *)
Lemma close_event_signals_nobody :
  ¬ all_pending_signalled waiting_state
      (snd (on_close 1006 "connection lost" waiting_state)).
Proof.
  intros H. specialize (H (KStr "uuid-0") O).
  destruct H as [data Hdata]; [by vm_compute|].
  vm_compute in Hdata. discriminate.
Qed.

(** C2, amended: on an error or close event the callback writes one log
    record (an error record with the error text, or a warning record with
    the close code and message), sets [ws_connected] to false and assigns
    "Error" or "Disconnected" to [st.session_state.connection_status] from
    the WebSocket thread, which leaves the status of the page's session as
    it is; it does nothing else: the table of callbacks and the completion
    signals are as before.  A caller that waits, with a timeout that
    [event.wait] accepts, while only such events (no frame) occur sees
    its wait end unsignalled, that is, by its own timeout. *)
Theorem connection_loss_leaves_pending_calls E σ :
  (∀ error, ∃ σ',
      on_error error σ = (Ret (), σ')
      ∧ ws_connected σ' = false
      ∧ log σ' = (log σ ++ [{| log_level := ERROR;
                               log_text := "WebSocket error: ";
                               log_args := [JStr error] |}])%list
      ∧ detached_status σ' = (detached_status σ ++ ["Error"])%list
      ∧ connection_status σ' = connection_status σ
      ∧ message_callbacks σ' = message_callbacks σ
      ∧ events σ' = events σ ∧ untouched σ σ')
  ∧ (∀ code msg, ∃ σ',
      on_close code msg σ = (Ret (), σ')
      ∧ ws_connected σ' = false
      ∧ log σ' = (log σ ++ [{| log_level := WARNING;
                               log_text := "WebSocket connection closed: ";
                               log_args := [JInt code; JStr msg] |}])%list
      ∧ detached_status σ' = (detached_status σ ++ ["Disconnected"])%list
      ∧ connection_status σ' = connection_status σ
      ∧ message_callbacks σ' = message_callbacks σ
      ∧ events σ' = events σ ∧ untouched σ σ')
  ∧ (∀ cb seconds,
      events σ !! cb = None →
      seconds ≤ time_max →
      Forall not_message (background E (clock σ)) →
      fst (event_wait E cb seconds σ) = Ret false
      ∧ message_callbacks (snd (event_wait E cb seconds σ))
        = message_callbacks σ
      ∧ events (snd (event_wait E cb seconds σ)) !! cb = None).
Proof.
  split; [|split].
  - intros error. eexists. split; [reflexivity|]. cbn. repeat split.
  - intros code msg. eexists. split; [reflexivity|]. cbn. repeat split.
  - intros cb seconds Hunset Hmax Hquiet.
    unfold event_wait. munfold. cbn -[run_events]. rewrite Hunset.
    rewrite bool_decide_eq_false_2 by (by intros [? ?]). cbn -[run_events].
    assert ((time_max <? seconds) = false) as -> by by apply Z.ltb_ge.
    destruct (seconds <=? 0); cbn -[run_events]; [by repeat split|].
    rewrite block_eq. cbn -[run_events].
    match goal with |- context [run_events E ?evs ?s] =>
      destruct (run_events_no_message E evs s Hquiet) as [Hcb Hev] end.
    rewrite Hev, Hcb. cbn. rewrite Hunset. split; [|by split].
    rewrite bool_decide_eq_false_2; [reflexivity|]. by intros [? ?].
Qed.

Lemma connection_loss_leaves_pending_calls_witness :
  events waiting_state !! O = None
  ∧ 30 ≤ time_max
  ∧ Forall not_message (background closing_env (clock waiting_state))
  ∧ fst (event_wait closing_env O 30 waiting_state) = Ret false
  ∧ message_callbacks (snd (event_wait closing_env O 30 waiting_state))
    = message_callbacks waiting_state
  ∧ events (snd (event_wait closing_env O 30 waiting_state)) !! O = None.
Proof.
  assert (events waiting_state !! O = None) as H1 by reflexivity.
  assert (30 ≤ time_max) as H2 by (by vm_compute).
  assert (Forall not_message (background closing_env (clock waiting_state)))
    as H3 by (simpl; repeat constructor).
  split; [exact H1|]. split; [exact H2|]. split; [exact H3|].
  exact (proj2 (proj2 (connection_loss_leaves_pending_calls
                         closing_env waiting_state)) O 30 H1 H2 H3).
Defined.

(** ** Connecting again *)

(** C4, as stated, fails: on a connected client [connect_websocket] is not
    a no-op. *)
Lemma connect_websocket_reconnects :
  ¬ (ws_connected online_state = true →
     connect_websocket quiet_env online_state = (Ret (), online_state)).
Proof.
  intros H. specialize (H eq_refl).
  apply (f_equal (λ r, length (trace (snd r)))) in H.
  vm_compute in H. discriminate.
Qed.

(** C4, amended: [connect_websocket] does not look at the connection
    state.  It does nothing exactly when the client is not a WebSocket
    client; on a WebSocket client it always makes a new [WebSocketApp],
    stores it in [ws] and starts a new thread, connected or not.  The
    test of [ws_connected] is made by [send_message], which does not call
    [connect_websocket] when the flag is set. *)
Theorem connect_websocket_unguarded E σ :
  (connection_type σ ≠ "WebSocket" →
   connect_websocket E σ = (Ret (), σ))
  ∧ (connection_type σ = "WebSocket" →
     ∃ σ', connect_websocket E σ = (Ret (), σ')
       ∧ ws σ' = Some {| app_url := ws_url_of (server_url σ);
                         app_header := get_headers σ |}
       ∧ trace σ' = (trace σ ++
                     [EThreadStart {| app_url := ws_url_of (server_url σ);
                                      app_header := get_headers σ |}])%list)
  ∧ (ws_connected σ = true → ensure_connected E σ = (Ret (), σ)).
Proof.
  split; [|split].
  - apply connect_websocket_other.
  - intros Hct.
    destruct (connect_websocket_facts E σ Hct)
      as (σ' & Hc & _ & _ & _ & _ & _ & _ & Hws & _ & _ & Ht & _).
    exists σ'. by repeat split.
  - apply ensure_connected_already.
Qed.

Lemma connect_websocket_unguarded_witness :
  connection_type (http_state 3) ≠ "WebSocket"
  ∧ connect_websocket quiet_env (http_state 3) = (Ret (), http_state 3)
  ∧ connection_type online_state = "WebSocket"
  ∧ ws_connected online_state = true
  ∧ (∃ σ', connect_websocket quiet_env online_state = (Ret (), σ')
       ∧ ws σ' = Some {| app_url := ws_url_of (server_url online_state);
                         app_header := get_headers online_state |}
       ∧ trace σ' = (trace online_state ++
                     [EThreadStart
                        {| app_url := ws_url_of (server_url online_state);
                           app_header := get_headers online_state |}])%list)
  ∧ ensure_connected quiet_env online_state = (Ret (), online_state).
Proof.
  assert (connection_type (http_state 3) ≠ "WebSocket") as H1 by done.
  assert (connection_type online_state = "WebSocket") as H2 by reflexivity.
  assert (ws_connected online_state = true) as H3 by reflexivity.
  split; [exact H1|].
  split; [exact (proj1 (connect_websocket_unguarded quiet_env (http_state 3)) H1)|].
  split; [exact H2|]. split; [exact H3|].
  split.
  - exact (proj1 (proj2 (connect_websocket_unguarded quiet_env online_state)) H2).
  - exact (proj2 (proj2 (connect_websocket_unguarded quiet_env online_state)) H3).
Defined.

(** ** Runs of the statements above *)



Lemma named_operations_payload_witness :
  connection_type (init_state sample_url "HTTP" 30 3 1) ≠ "WebSocket"
  ∧ 0 ≤ max_retries (init_state sample_url "HTTP" 30 3 1)
  ∧ ∃ new rest,
      trace (snd (add_workflow quiet_env "a,b"
                    (init_state sample_url "HTTP" 30 3 1)))
      = (trace (init_state sample_url "HTTP" 30 3 1) ++ new)%list
      ∧ new = EPost sample_url [("Content-Type", "application/json")]
                (JDict [("type", JStr "message");
                        ("name", JStr "addWorkflow");
                        ("data",
                         JDict [("operation", JStr "addWorkflow");
                                ("workflowIds", JStr "a,b");
                                ("parameters", JStr "null")]);
                        ("id", JStr "uuid-0")])
                30 :: rest.
Proof.
  assert (connection_type (init_state sample_url "HTTP" 30 3 1)
          ≠ "WebSocket") as H1 by done.
  assert (0 ≤ max_retries (init_state sample_url "HTTP" 30 3 1)) as H2
    by (simpl; lia).
  split; [exact H1|]. split; [exact H2|].
  destruct (proj1 (proj2 (proj2 (named_operations_payload quiet_env)))
              "a,b" (init_state sample_url "HTTP" 30 3 1))
    as (_ & _ & _ & new & Ht & _ & Hhttp & _).
  destruct (Hhttp H1 H2) as (rest & Hnew).
  exists new, rest. split; [exact Ht | exact Hnew].
Defined.

Lemma websocket_connect_failure_witness :
  connection_type offline_state = "WebSocket"
  ∧ ws_connected offline_state = false
  ∧ ws_connected (snd (ensure_connected quiet_env
                         (snd (stamp quiet_env 0 offline_state)))) = false
  ∧ ∃ σ', send_message quiet_env 0 offline_state
          = (Ret (JDict [("error", JStr "Failed to connect to WebSocket")]),
             σ')
      ∧ trace σ' = EThreadStart sample_app :: replicate 10 (ESleep (1 # 2))
      ∧ next_callback σ' = next_callback offline_state
      ∧ message_callbacks σ' ⊆ message_callbacks offline_state.
Proof.
  assert (connection_type offline_state = "WebSocket") as H1 by reflexivity.
  assert (ws_connected offline_state = false) as H2 by reflexivity.
  assert (ws_connected (snd (ensure_connected quiet_env
                               (snd (stamp quiet_env 0 offline_state))))
          = false) as H3 by (by vm_compute).
  split; [exact H1|]. split; [exact H2|]. split; [exact H3|].
  destruct (websocket_connect_failure quiet_env 0 offline_state H1 H2)
    as (σ0 & σ1 & k & Hst & Hen & _ & Ht1 & Hfail).
  assert (ws_connected σ1 = false) as Hoff.
  { rewrite Hst in H3. cbn [snd] in H3. rewrite Hen in H3. exact H3. }
  destruct (Hfail Hoff) as (-> & σ' & Hr & Ht & Hnc & Hsub & _).
  exists σ'. split; [exact Hr|]. split; [|split; [exact Hnc | exact Hsub]].
  rewrite Ht, Ht1. reflexivity.
Defined.

Lemma send_message_assigns_id_in_place_witness :
  heap (http_state 3) !! O = Some sample_message
  ∧ truthy_opt (dict_get "id" sample_message) = false
  ∧ heap (snd (send_message quiet_env 0 (http_state 3))) !! O
    = Some (dict_set "id" (JStr (uuid4 quiet_env (clock (http_state 3))))
              sample_message).
Proof.
  assert (heap (http_state 3) !! O = Some sample_message) as H1
    by reflexivity.
  assert (truthy_opt (dict_get "id" sample_message) = false) as H2
    by reflexivity.
  split; [exact H1|]. split; [exact H2|].
  exact (proj1 (proj2 (send_message_assigns_id_in_place quiet_env 0
                         (http_state 3) sample_message H1 H2))).
Defined.

(** * Further properties of the client *)

(** ** A message that already has an id *)

(** A message whose ["id"] is truthy is sent as the caller made it: the
    caller's dictionary and every other object are unchanged, no uuid is
    drawn, and what goes on the wire is that dictionary. *)
Theorem send_message_keeps_given_id E l σ m :
  heap σ !! l = Some m →
  truthy_opt (dict_get "id" m) = true →
  heap (snd (send_message E l σ)) = heap σ
  ∧ clock (snd (stamp E l σ)) = clock σ
  ∧ ∃ new, trace (snd (send_message E l σ)) = (trace σ ++ new)%list
           ∧ Forall (carries E m) new.
Proof.
  intros Hl Hid.
  destruct (send_message_keeps_id E l σ m Hl Hid) as [Hh Hnew].
  split; [exact Hh|]. split; [|exact Hnew].
  destruct (stamp_facts E l σ)
    as (σ0 & -> & _ & _ & _ & _ & _ & _ & _ & _ & _ & _ & _ & _ & _ & _ & Hc).
  simpl. by rewrite Hc, (lookup_total_correct _ _ _ Hl), Hid.
Qed.

Lemma send_message_keeps_given_id_witness :
  heap (http_state_with_id 3) !! O = Some sample_message_with_id
  ∧ truthy_opt (dict_get "id" sample_message_with_id) = true
  ∧ heap (snd (send_message quiet_env 0 (http_state_with_id 3)))
    = heap (http_state_with_id 3).
Proof.
  assert (heap (http_state_with_id 3) !! O = Some sample_message_with_id)
    as H1 by reflexivity.
  assert (truthy_opt (dict_get "id" sample_message_with_id) = true) as H2
    by reflexivity.
  split; [exact H1|]. split; [exact H2|].
  exact (proj1 (send_message_keeps_given_id quiet_env 0
                  (http_state_with_id 3) sample_message_with_id H1 H2)).
Defined.

(** ** The HTTP branch at its edges *)

Section HttpEdges.

Variable E : environment.
Variable l : nat.

(** What any run of the loop does, whatever the server answers: only
    requests and sleeps, never more passes than it was given, and one
    sleep fewer than passes. *)
Lemma http_loop_bounded n : ∀ attempt σ,
  attempt + Z.of_nat n = max_retries σ + 1 →
  ∃ new, trace (snd (http_loop E n attempt l σ)) = (trace σ ++ new)%list
    ∧ Forall (λ e, e = post_effect l σ
                   ∨ e = ESleep (inject_Z (retry_delay σ))) new
    ∧ (count_effects is_post new ≤ n)%nat
    ∧ ((S (count_effects is_sleep new) ≤ n)%nat ∨ new = [])
    ∧ message_callbacks (snd (http_loop E n attempt l σ))
      ⊆ message_callbacks σ
    ∧ next_callback (snd (http_loop E n attempt l σ)) = next_callback σ
    ∧ ws (snd (http_loop E n attempt l σ)) = ws σ.
Proof.
  induction n as [|n IH]; intros attempt σ Hn.
  - exists []. simpl. rewrite app_nil_r. repeat split; auto.
  - destruct (post E (clock σ)) as [body|e] eqn:Hp.
    + destruct (http_loop_answer E l n attempt σ body Hp)
        as (σ' & -> &?&?&?&?&?&?&?&?&?&?& Hcb &?& Ht &?).
      exists [post_effect l σ]. simpl. split; [exact Ht|].
      split; [repeat constructor|]. unfold count_effects. simpl.
      split; [lia|]. split; [left; lia|].
      split; [by rewrite Hcb|]. by split.
    + destruct (is_RequestException e) eqn:He.
      * destruct (decide (attempt < max_retries σ)) as [Hlt|Hge].
        -- destruct (decide (0 ≤ retry_delay σ ≤ time_max)) as [Hdel|Hdel].
           2:{ destruct (http_loop_sleep_refused E l n attempt σ e Hp He
                           Hlt Hdel)
                 as (σ1 & e' & -> & _ &?&?&?&?&?&?& Hws1 &?& Hnc1 & Hcb1
                     & Ht1).
               exists [post_effect l σ]. cbn [snd]. split; [exact Ht1|].
               split; [repeat constructor|]. unfold count_effects. simpl.
               split; [lia|]. split; [left; lia|].
               split; [by rewrite Hcb1|]. by split. }
           destruct (http_loop_retry E l n attempt σ e Hp He Hlt Hdel)
             as (σ2 & -> & Hu & Ha &?& Hto & Hr & Hd & Hws & Hh & Hnc
                 & Ht & ? & Hsub).
           destruct (IH (attempt + 1) σ2) as
             (new & Ht' & Hf & Hposts & Hsleeps & Hsub' & Hnc' & Hws').
           { rewrite Hr. lia. }
           exists (post_effect l σ :: ESleep (inject_Z (retry_delay σ))
                   :: new).
           split.
           { rewrite Ht', Ht. by rewrite <- app_assoc. }
           split.
           { constructor; [by left|]. constructor; [by right|].
             rewrite Hd, (post_effect_ext l σ σ2 Hu Ha Hto Hh) in Hf.
             exact Hf. }
           unfold count_effects in *. simpl.
           split; [lia|]. split.
           { left. destruct Hsleeps as [Hs| ->]; simpl; [lia|].
             destruct n; [lia|]. lia. }
           split; [by etrans|]. split; congruence.
        -- destruct (http_loop_give_up E l n attempt σ e Hp He Hge)
             as (σ' & -> &?&?&?&?&?&?&?&?&?&?& Hcb &?& Ht &?).
           exists [post_effect l σ]. simpl. split; [exact Ht|].
           split; [repeat constructor|]. unfold count_effects. simpl.
           split; [lia|]. split; [left; lia|].
           split; [by rewrite Hcb|]. by split.
      * unfold http_loop; fold http_loop. unfold http_attempt. munfold.
        simpl. rewrite Hp. simpl. rewrite He. simpl.
        exists [post_effect l σ]. split; [reflexivity|].
        split; [repeat constructor|]. unfold count_effects. simpl.
        split; [lia|]. split; [left; lia|]. by repeat split.
Qed.

End HttpEdges.

(** Whatever the server does, an HTTP call with [max_retries = r >= 0]
    makes at most [r + 1] requests and sleeps at most [r] times; it makes
    nothing but these requests and sleeps (no thread, no frame, no wait),
    every request is the same POST of the message to [server_url] with
    the client's headers and timeout, every sleep lasts [retry_delay],
    and no callback is registered. *)
Theorem http_call_bounded E l σ :
  connection_type σ ≠ "WebSocket" →
  0 ≤ max_retries σ →
  ∃ new,
    trace (snd (send_message E l σ)) = (trace σ ++ new)%list
    ∧ Forall (λ e, e = post_effect l (snd (stamp E l σ))
                   ∨ e = ESleep (inject_Z (retry_delay σ))) new
    ∧ (count_effects is_post new ≤ S (Z.to_nat (max_retries σ)))%nat
    ∧ (count_effects is_sleep new ≤ Z.to_nat (max_retries σ))%nat
    ∧ message_callbacks (snd (send_message E l σ)) ⊆ message_callbacks σ
    ∧ next_callback (snd (send_message E l σ)) = next_callback σ
    ∧ ws (snd (send_message E l σ)) = ws σ.
Proof.
  intros Hct Hr.
  destruct (stamp_facts E l σ)
    as (σ0 & Hst & _ & _ & _ & _ & Hmr & Hd & Hws & _ & Hcb & _ & Hnc & _
        & Ht & _ & _).
  rewrite (send_message_http E l σ σ0 Hct Hst), Hst. simpl.
  destruct (http_loop_bounded E l (Z.to_nat (max_retries σ0 + 1)) 0 σ0)
    as (new & Ht' & Hf & Hposts & Hsleeps & Hsub & Hnc' & Hws').
  { lia. }
  exists new. rewrite Ht', Ht, <- Hd, <- Hcb, <- Hnc, <- Hws.
  split; [reflexivity|]. split; [exact Hf|].
  rewrite Hmr in Hposts, Hsleeps.
  split; [lia|]. split.
  { destruct Hsleeps as [Hs| ->]; [lia|]. unfold count_effects. simpl. lia. }
  by repeat split.
Qed.

Lemma http_call_bounded_witness :
  connection_type (http_state 2) ≠ "WebSocket"
  ∧ 0 ≤ max_retries (http_state 2)
  ∧ ∃ new,
      trace (snd (send_message (answering_env sample_reply) 0 (http_state 2)))
      = (trace (http_state 2) ++ new)%list
      ∧ (count_effects is_post new ≤ S (Z.to_nat (max_retries (http_state 2))))%nat.
Proof.
  assert (connection_type (http_state 2) ≠ "WebSocket") as H1 by done.
  assert (0 ≤ max_retries (http_state 2)) as H2 by (simpl; lia).
  split; [exact H1|]. split; [exact H2|].
  destruct (http_call_bounded (answering_env sample_reply) 0 (http_state 2)
              H1 H2) as (new & Ht & _ & Hp & _).
  exists new. split; [exact Ht | exact Hp].
Defined.

(** An exception of an attempt that is not a [RequestException] is not
    retried: the call makes that one request, does not sleep, and the
    exception leaves [send_message]. *)
Theorem http_other_exception_propagates E l σ e :
  connection_type σ ≠ "WebSocket" →
  0 ≤ max_retries σ →
  post E (clock (snd (stamp E l σ))) = Raised e →
  is_RequestException e = false →
  ∃ σ', send_message E l σ = (Raise e, σ')
    ∧ trace σ' = (trace σ ++ [post_effect l (snd (stamp E l σ))])%list.
Proof.
  intros Hct Hr Hp He.
  destruct (stamp_facts E l σ)
    as (σ0 & Hst & _ & _ & _ & _ & Hmr & _ & _ & _ & _ & _ & _ & _
        & Ht & _ & _).
  rewrite (send_message_http E l σ σ0 Hct Hst). rewrite Hst in *.
  simpl in *.
  replace (Z.to_nat (max_retries σ0 + 1))
    with (S (Z.to_nat (max_retries σ0))) by lia.
  destruct (http_loop_propagate E l (Z.to_nat (max_retries σ0)) 0 σ0 e Hp He)
    as (σ' & -> & _ & _ & _ & _ & _ & _ & _ & Ht').
  exists σ'. split; [reflexivity|]. by rewrite Ht', Ht.
Qed.

Lemma http_other_exception_propagates_witness :
  connection_type (http_state 3) ≠ "WebSocket"
  ∧ 0 ≤ max_retries (http_state 3)
  ∧ post broken_body_env (clock (snd (stamp broken_body_env 0 (http_state 3))))
    = Raised (Exn OtherException "Expecting value")
  ∧ is_RequestException (Exn OtherException "Expecting value") = false
  ∧ ∃ σ', send_message broken_body_env 0 (http_state 3)
          = (Raise (Exn OtherException "Expecting value"), σ')
      ∧ trace σ' = (trace (http_state 3) ++
                    [post_effect 0 (snd (stamp broken_body_env 0
                                           (http_state 3)))])%list.
Proof.
  assert (connection_type (http_state 3) ≠ "WebSocket") as H1 by done.
  assert (0 ≤ max_retries (http_state 3)) as H2 by (simpl; lia).
  assert (post broken_body_env
            (clock (snd (stamp broken_body_env 0 (http_state 3))))
          = Raised (Exn OtherException "Expecting value")) as H3
    by reflexivity.
  assert (is_RequestException (Exn OtherException "Expecting value") = false)
    as H4 by reflexivity.
  split; [exact H1|]. split; [exact H2|]. split; [exact H3|].
  split; [exact H4|].
  exact (http_other_exception_propagates broken_body_env 0 (http_state 3)
           _ H1 H2 H3 H4).
Defined.

(** With a negative [max_retries] the range of the loop is empty: the
    call makes no request at all and returns [None], not an error
    value. *)
Theorem http_negative_retries_returns_none E l σ :
  connection_type σ ≠ "WebSocket" →
  max_retries σ < 0 →
  ∃ σ', send_message E l σ = (Ret JNull, σ')
    ∧ trace σ' = trace σ.
Proof.
  intros Hct Hr.
  destruct (stamp_facts E l σ)
    as (σ0 & Hst & _ & _ & _ & _ & Hmr & _ & _ & _ & _ & _ & _ & _
        & Ht & _ & _).
  rewrite (send_message_http E l σ σ0 Hct Hst).
  replace (Z.to_nat (max_retries σ0 + 1)) with O by lia.
  exists σ0. split; [reflexivity | exact Ht].
Qed.

Lemma http_negative_retries_returns_none_witness :
  connection_type (http_state (-1)) ≠ "WebSocket"
  ∧ max_retries (http_state (-1)) < 0
  ∧ ∃ σ', send_message quiet_env 0 (http_state (-1)) = (Ret JNull, σ')
      ∧ trace σ' = trace (http_state (-1)).
Proof.
  assert (connection_type (http_state (-1)) ≠ "WebSocket") as H1 by done.
  assert (max_retries (http_state (-1)) < 0) as H2 by (simpl; lia).
  split; [exact H1|]. split; [exact H2|].
  exact (http_negative_retries_returns_none quiet_env 0 (http_state (-1))
           H1 H2).
Defined.

(** ** A WebSocket call and the frames that arrive while it waits *)

Section Exchange.

Variable E : environment.
Variable l : nat.

(** A frame that is a reply filed under [k], met while the callback [cb]
    is registered under [k]: the reply is stored for [cb] and the entry
    is deleted. *)
Lemma dispatch_reply message data k cb σ :
  json_loads E message = Some data →
  reply_key data = Some k →
  message_callbacks σ !! k = Some cb →
  events (snd (dispatch E (WsMessage message) σ)) = <[cb := data]> (events σ)
  ∧ message_callbacks (snd (dispatch E (WsMessage message) σ))
    = delete k (message_callbacks σ).
Proof.
  intros Hl Hk Hcb. simpl.
  destruct (on_message_cases E message σ)
    as (σ' & -> & _ & _ & _ & Hcases & _). simpl.
  rewrite Hl, Hk, Hcb in Hcases. by destruct Hcases as (-> & -> & _).
Qed.

(** Frames that are not replies filed under [k] leave the entry under [k]
    and the signal of its callback as they are, provided the callback is
    registered under [k] only. *)
Lemma run_events_other_replies evs : ∀ σ k cb,
  Forall (not_reply_to E k) evs →
  message_callbacks σ !! k = Some cb →
  (∀ k', message_callbacks σ !! k' = Some cb → k' = k) →
  message_callbacks (run_events E evs σ) !! k = Some cb
  ∧ events (run_events E evs σ) !! cb = events σ !! cb
  ∧ (∀ k', message_callbacks (run_events E evs σ) !! k' = Some cb → k' = k).
Proof.
  induction evs as [|ev evs IH]; intros σ k cb Hall Hreg Honly; simpl.
  - done.
  - inversion Hall as [|? ? Hev Hrest]; subst.
    assert (message_callbacks (snd (dispatch E ev σ)) !! k = Some cb
            ∧ events (snd (dispatch E ev σ)) !! cb = events σ !! cb
            ∧ (∀ k', message_callbacks (snd (dispatch E ev σ)) !! k' = Some cb
                     → k' = k)) as (Hreg1 & Hev1 & Honly1).
    { destruct ev as [| error | code msg | message]; simpl; try done.
      destruct (on_message_cases E message σ)
        as (σ' & -> & _ & _ & _ & Hcases & _). simpl. simpl in Hev.
      destruct (json_loads E message) as [data|].
      2:{ by destruct Hcases as (-> & -> & _). }
      destruct (reply_key data) as [k'|].
      2:{ by destruct Hcases as (-> & -> & _). }
      destruct (message_callbacks σ !! k') as [cb'|] eqn:Hk'.
      2:{ by destruct Hcases as (-> & -> & _). }
      destruct Hcases as (-> & -> & _).
      assert (k' ≠ k) as Hne by congruence.
      assert (cb' ≠ cb) as Hcne.
      { intros ->. by apply Hne, Honly. }
      split; [by rewrite lookup_delete_ne|].
      split; [by rewrite lookup_insert_ne|].
      intros k'' Hk''. apply Honly.
      destruct (decide (k' = k'')) as [->|Hne'].
      - by rewrite lookup_delete_eq in Hk''.
      - by rewrite lookup_delete_ne in Hk''. }
    destruct (IH (snd (dispatch E ev σ)) k cb Hrest Hreg1 Honly1)
      as (? & Hev2 & ?).
    split; [done|]. split; [by rewrite Hev2|done].
Qed.

End Exchange.

(** The reply to a call, arriving while the call is under way after
    frames for other calls and before events that are no frames, is
    returned. *)
Lemma websocket_call_reply E l σ m idv k app before message data after :
  heap σ !! l = Some m →
  dict_get "id" m = Some idv →
  hash_key idv = Some k →
  ws σ = Some app →
  (∀ k', message_callbacks σ !! k' ≠ Some (next_callback σ)) →
  ws_send E (clock σ) = None →
  background E (S (clock σ))
  = (before ++ WsMessage message :: after)%list →
  Forall (not_reply_to E k) before →
  json_loads E message = Some data →
  reply_key data = Some k →
  Forall not_message after →
  ∃ σ', websocket_call E l σ = (Ret data, σ')
    ∧ message_callbacks σ' !! k = None
    ∧ events σ' !! next_callback σ = Some data
    ∧ trace σ' = (trace σ ++ [EWsSend (json_dumps E (JDict m));
                              EWait (timeout σ)])%list.
Proof.
  intros Hl Hid Hk Hws Hfresh Hsend Hbg Hbefore Hloads Hkey Hafter.
  pose proof (lookup_total_correct _ _ _ Hl) as Hm.
  destruct (websocket_call_cases E l σ)
    as [(e & σx & _ & _ & Hwhy & _)
       |[(e & σx & idv' & k' & _ & _ & _ & Hs & _)
        |(σs & idv' & k' & Hid' & Hk' & _ & _ & -> & _ & _ & _ & Htos & _ & _
          & _ & _ & Hevs & _ & Hts & _ & Hcbs)]].
  { rewrite Hm in Hwhy.
    destruct Hwhy as [Hn|[(idv' & Hi & Hn)|Hn]]; congruence. }
  { congruence. }
  rewrite Hm in Hid', Hts. assert (k' = k) as -> by congruence.
  rewrite Hbg. unfold run_events. rewrite foldl_app. simpl.
  fold (run_events E before σs).
  destruct (run_events_other_replies E before σs k (next_callback σ))
    as (Hreg1 & Hev1 & _).
  { exact Hbefore. }
  { rewrite Hcbs. apply lookup_insert_eq. }
  { intros k' Hk''. rewrite Hcbs in Hk''.
    destruct (decide (k = k')) as [->|Hne]; [done|].
    rewrite lookup_insert_ne in Hk'' by done. by destruct (Hfresh k'). }
  destruct (dispatch_reply E message data k (next_callback σ)
              (run_events E before σs) Hloads Hkey Hreg1) as [Hev2 Hcb2].
  simpl in Hev2, Hcb2.
  match goal with |- context [foldl ?f ?s after] =>
    change (foldl f s after) with (run_events E after s);
    destruct (run_events_no_message E after s Hafter) as [Hcb3 Hev3];
    destruct (run_events_untouched E after s) as [Hu3 _];
    destruct (dispatch_untouched E (WsMessage message)
                (run_events E before σs)) as [Hu2 _];
    destruct (run_events_untouched E before σs) as [Hu1 _];
    remember (run_events E after s) as σr eqn:Hσr; clear Hσr
  end.
  assert (events σr !! next_callback σ = Some data) as Hdata.
  { rewrite Hev3. simpl. rewrite Hev2. apply lookup_insert_eq. }
  rewrite (await_reply_set E _ σr data Hdata).
  eexists. split; [reflexivity|]. cbn.
  split.
  { rewrite Hcb3. simpl. rewrite Hcb2. apply lookup_delete_eq. }
  split; [exact Hdata|].
  destruct Hu3 as (_&_&_& Hto3 &_&_&_&_&_& Ht3 &_).
  destruct Hu2 as (_&_&_& Hto2 &_&_&_&_&_& Ht2 &_).
  destruct Hu1 as (_&_&_& Hto1 &_&_&_&_&_& Ht1 &_).
  simpl in Ht2, Hto2.
  rewrite Ht3, Ht2, Ht1, Hts, Hto3, Hto2, Hto1, Htos.
  by rewrite <- app_assoc.
Qed.

Lemma send_message_online E l σ σ0 :
  connection_type σ = "WebSocket" →
  ws_connected σ = true →
  stamp E l σ = (Ret (), σ0) →
  send_message E l σ = websocket_call E l σ0.
Proof.
  intros Hct Hc Hst.
  destruct (stamp_facts E l σ)
    as (σ0' & Hst' & _ & _ & Hct0 & _ & _ & _ & _ & Hc0 & _).
  rewrite Hst in Hst'. injection Hst' as <-.
  unfold send_message. munfold. rewrite Hst. simpl.
  rewrite Hct0, Hct. simpl. unfold websocket_send. munfold.
  rewrite ensure_connected_already by congruence. simpl.
  rewrite Hc0, Hc. reflexivity.
Qed.

(** On a connected client, the reply to a call that arrives before the
    caller starts to wait, while [ws.send] is under way (after frames for
    other calls, before events that are no frames), is what
    [send_message] returns: the wait finds the signal set and returns at
    once, whatever the timeout; after the call its callback is no longer
    in the table.  Here [m] is the message as sent, with its id, and [k]
    the key of that id. *)
Theorem websocket_reply_returned E l σ m idv k app before message data after :
  connection_type σ = "WebSocket" →
  ws_connected σ = true →
  ws σ = Some app →
  heap (snd (stamp E l σ)) !! l = Some m →
  dict_get "id" m = Some idv →
  hash_key idv = Some k →
  (∀ k', message_callbacks σ !! k' ≠ Some (next_callback σ)) →
  ws_send E (clock (snd (stamp E l σ))) = None →
  background E (S (clock (snd (stamp E l σ))))
  = (before ++ WsMessage message :: after)%list →
  Forall (not_reply_to E k) before →
  json_loads E message = Some data →
  reply_key data = Some k →
  Forall not_message after →
  ∃ σ', send_message E l σ = (Ret data, σ')
    ∧ message_callbacks σ' !! k = None
    ∧ trace σ' = (trace σ ++ [EWsSend (json_dumps E (JDict m));
                              EWait (timeout σ)])%list.
Proof.
  intros Hct Hc Hws Hl Hid Hk Hfresh Hsend Hbg Hbefore Hloads Hkey Hafter.
  destruct (stamp_facts E l σ)
    as (σ0 & Hst & _ & _ & _ & Hto & _ & _ & Hws0 & _ & Hcb0 & _ & Hnc0 & _
        & Ht0 & _ & _).
  rewrite Hst in *. simpl in *.
  rewrite (send_message_online E l σ σ0 Hct Hc Hst).
  destruct (websocket_call_reply E l σ0 m idv k app before message data after)
    as (σ' & Hcall & Hgone & _ & Ht); try assumption.
  { congruence. }
  { intros k'. rewrite Hcb0, Hnc0. apply Hfresh. }
  exists σ'. split; [exact Hcall|]. split; [exact Hgone|].
  by rewrite Ht, Ht0, Hto.
Qed.

Lemma websocket_reply_returned_witness :
  ∃ σ', send_message (replying_env sample_reply) 0 online_state
        = (Ret sample_reply, σ')
    ∧ message_callbacks σ' !! KStr "uuid-0" = None.
Proof.
  destruct (websocket_reply_returned (replying_env sample_reply) 0
              online_state
              (dict_set "id" (JStr "uuid-0") sample_message)
              (JStr "uuid-0") (KStr "uuid-0") sample_app
              [] (sample_dumps sample_reply) sample_reply [])
    as (σ' & Hr & Hgone & _); try reflexivity.
  - intros k'. unfold online_state, offline_state. simpl.
    rewrite lookup_empty. discriminate.
  - constructor.
  - constructor.
  - exists σ'. split; [exact Hr | exact Hgone].
Defined.

(** Frames for other calls do not complete a call.  The timeout is one
    that [wait] accepts (at most [time_max]); every frame that arrives
    while the frame is sent or while the caller waits is filed under
    another key, or cannot be filed.  Then the call returns the
    dictionary with the one entry ["error"]: ["Request timed out"], its
    callback is still registered, and its signal is unset. *)
Theorem websocket_other_replies_ignored E l σ m idv k app :
  connection_type σ = "WebSocket" →
  ws_connected σ = true →
  ws σ = Some app →
  heap (snd (stamp E l σ)) !! l = Some m →
  dict_get "id" m = Some idv →
  hash_key idv = Some k →
  (∀ k', message_callbacks σ !! k' ≠ Some (next_callback σ)) →
  events σ !! next_callback σ = None →
  timeout σ ≤ time_max →
  ws_send E (clock (snd (stamp E l σ))) = None →
  Forall (not_reply_to E k) (background E (S (clock (snd (stamp E l σ))))) →
  Forall (not_reply_to E k)
    (background E (S (S (clock (snd (stamp E l σ)))))) →
  ∃ σ', send_message E l σ
        = (Ret (JDict [("error", JStr "Request timed out")]), σ')
    ∧ message_callbacks σ' !! k = Some (next_callback σ)
    ∧ events σ' !! next_callback σ = None
    ∧ trace σ' = (trace σ ++ [EWsSend (json_dumps E (JDict m));
                              EWait (timeout σ)])%list.
Proof.
  intros Hct Hc Hws Hl Hid Hk Hfresh Hunset Hmax Hsend Hsent Hwaited.
  destruct (stamp_facts E l σ)
    as (σ0 & Hst & _ & _ & _ & Hto & _ & _ & Hws0 & _ & Hcb0 & Hev0 & Hnc0
        & _ & Ht0 & _ & _).
  rewrite Hst in *. simpl in *.
  rewrite (send_message_online E l σ σ0 Hct Hc Hst).
  pose proof (lookup_total_correct _ _ _ Hl) as Hm.
  destruct (websocket_call_cases E l σ0)
    as [(e & σx & _ & _ & Hwhy & _)
       |[(e & σx & idv' & k' & _ & _ & _ & Hs & _)
        |(σs & idv' & k' & Hid' & Hk' & _ & _ & -> & _ & _ & _ & Htos & _ & _
          & _ & _ & Hevs & _ & Hts & Hcls & Hcbs)]].
  { rewrite Hm in Hwhy.
    destruct Hwhy as [Hn|[(idv' & Hi & Hn)|Hn]]; congruence. }
  { congruence. }
  rewrite Hm in Hid', Hts. assert (k' = k) as -> by congruence.
  destruct (run_events_other_replies E
              (background E (S (clock σ0))) σs k (next_callback σ0))
    as (Hreg & Hev & Honly).
  { exact Hsent. }
  { rewrite Hcbs. apply lookup_insert_eq. }
  { intros k' Hk''. rewrite Hcbs in Hk''.
    destruct (decide (k = k')) as [->|Hne]; [done|].
    rewrite lookup_insert_ne in Hk'' by done.
    rewrite Hcb0, Hnc0 in Hk''. by destruct (Hfresh k'). }
  match type of Hreg with context [run_events E ?evs ?s] =>
    destruct (run_events_untouched E evs s)
      as [(_ & _ & _ & Htoa & _ & _ & _ & _ & _ & Hta & Hcla) _];
    remember (run_events E evs s) as σa eqn:Hσa; clear Hσa end.
  assert (events σa !! next_callback σ0 = None) as Heva
    by (rewrite Hev, Hevs, Hev0, Hnc0; exact Hunset).
  assert (trace σa ++ [EWait (timeout σa)]
          = trace σ ++ [EWsSend (json_dumps E (JDict m));
                        EWait (timeout σ)])%list as Htr.
  { rewrite Hta, Hts, Ht0, Htoa, Htos, Hto. by rewrite <- app_assoc. }
  destruct (decide (timeout σa ≤ 0)) as [Hsmall|Hpos].
  { rewrite (await_reply_at_once E _ σa Heva Hsmall).
    eexists. split; [reflexivity|]. cbn.
    split; [by rewrite <- Hnc0|]. split; [by rewrite <- Hnc0|exact Htr]. }
  rewrite (await_reply_blocks E _ σa Heva) by lia. cbv zeta.
  rewrite Hcla, Hcls.
  match goal with |- context [run_events E ?evs ?s] =>
    destruct (run_events_other_replies E evs s k (next_callback σ0))
      as (Hregb & Hevb & _);
      [exact Hwaited | exact Hreg | exact Honly |];
    destruct (run_events_untouched E evs s)
      as [(_ & _ & _ & _ & _ & _ & _ & _ & _ & Htb & _) _];
    remember (run_events E evs s) as σb eqn:Hσb; clear Hσb end.
  cbn in Hevb, Htb. rewrite Heva in Hevb. rewrite Hevb.
  eexists. split; [reflexivity|]. cbn.
  split; [by rewrite <- Hnc0|]. split; [by rewrite <- Hnc0|].
  by rewrite Htb.
Qed.

Lemma websocket_other_replies_ignored_witness :
  ∃ σ', send_message other_reply_env 0 online_state
        = (Ret (JDict [("error", JStr "Request timed out")]), σ')
    ∧ message_callbacks σ' !! KStr "uuid-0" = Some O.
Proof.
  destruct (websocket_other_replies_ignored other_reply_env 0 online_state
              (dict_set "id" (JStr "uuid-0") sample_message)
              (JStr "uuid-0") (KStr "uuid-0") sample_app)
    as (σ' & Hr & Hreg & _); try reflexivity.
  - intros k'. unfold online_state, offline_state. simpl.
    rewrite lookup_empty. discriminate.
  - vm_compute. discriminate.
  - repeat constructor. vm_compute. discriminate.
  - constructor.
  - exists σ'. split; [exact Hr | exact Hreg].
Defined.

(** ** The shape of a WebSocket call *)

Lemma websocket_call_trace E l σ :
  ∃ part, trace (snd (websocket_call E l σ)) = (trace σ ++ part)%list
    ∧ (part = []
       ∨ part = [EWsSend (json_dumps E (JDict (heap σ !!! l)))]
       ∨ part = [EWsSend (json_dumps E (JDict (heap σ !!! l)));
                 EWait (timeout σ)]).
Proof.
  destruct (websocket_call_cases E l σ)
    as [(e & σx & -> & _ & _ & _ & _ & _ & _ & _ & _ & _ & _ & Ht & _)
       |[(e & σx & idv & k & -> & _ & _ & _ & _ & _ & _ & _ & _ & _ & _ & _
          & Ht & _)
        |(σs & idv & k & _ & _ & _ & _ & -> & _ & _ & _ & Htos & _ & _
          & _ & _ & _ & _ & Hts & _ & _)]].
  - exists []. cbn. rewrite app_nil_r. auto.
  - eexists. cbn. split; [exact Ht|]. auto.
  - match goal with |- context [run_events E ?evs ?s] =>
      destruct (run_events_untouched E evs s)
        as [(_ & _ & _ & Htoa & _ & _ & _ & _ & _ & Hta & _) _];
      remember (run_events E evs s) as σa eqn:Hσa; clear Hσa end.
    destruct (await_reply_facts E (next_callback σ) σa)
      as (_ & _ & _ & _ & _ & _ & _ & _ & _ & Ht & _).
    exists [EWsSend (json_dumps E (JDict (heap σ !!! l))); EWait (timeout σ)].
    split; [|auto].
    rewrite Ht, Hta, Hts, Htoa, Htos. by rewrite <- app_assoc.
Qed.

(** A WebSocket call does, in this order: when the client is not
    connected, one thread start and at most ten sleeps of half a second;
    then at most one frame, which is the message, and at most one wait of
    [timeout] seconds.  It makes no HTTP request and never sends a frame
    twice. *)
Theorem websocket_call_shape E l σ :
  connection_type σ = "WebSocket" →
  ∃ conn part,
    trace (snd (send_message E l σ)) = (trace σ ++ conn ++ part)%list
    ∧ (conn = [] ∧ ws_connected σ = true
       ∨ ∃ k : nat, (k ≤ 10)%nat ∧ ws_connected σ = false
           ∧ conn = connect_effects
                      {| app_url := ws_url_of (server_url σ);
                         app_header := get_headers σ |} k)
    ∧ (part = []
       ∨ part = [EWsSend (json_dumps E
                            (JDict (heap (snd (stamp E l σ)) !!! l)))]
       ∨ part = [EWsSend (json_dumps E
                            (JDict (heap (snd (stamp E l σ)) !!! l)));
                 EWait (timeout σ)]).
Proof.
  intros Hct.
  destruct (stamp_facts E l σ)
    as (σ0 & Hst & Hu & Ha & Hct0 & Hto & _ & _ & _ & Hc0 & _ & _ & _ & _
        & Ht0 & _ & _).
  unfold send_message. munfold. rewrite Hst. simpl.
  rewrite Hct0, Hct. simpl. unfold websocket_send. munfold.
  assert (∃ σ1 conn, ensure_connected E σ0 = (Ret (), σ1)
            ∧ trace σ1 = (trace σ ++ conn)%list
            ∧ heap σ1 = heap σ0 ∧ timeout σ1 = timeout σ
            ∧ (conn = [] ∧ ws_connected σ = true
               ∨ ∃ k : nat, (k ≤ 10)%nat ∧ ws_connected σ = false
                   ∧ conn = connect_effects
                              {| app_url := ws_url_of (server_url σ);
                                 app_header := get_headers σ |} k))
    as (σ1 & conn & Hen & Ht1 & Hh1 & Hto1 & Hconn).
  { destruct (ws_connected σ) eqn:Hc.
    - exists σ0, []. rewrite ensure_connected_already by congruence.
      rewrite app_nil_r. repeat split; auto.
    - destruct (ensure_connected_facts E σ0)
        as (σ1 & k & Hen & Hk & _ & _ & _ & _ & Hto1 & _ & _ & _ & Hh1 & _
            & Ht1 & _); [congruence|congruence|].
      exists σ1, (connect_effects
                    {| app_url := ws_url_of (server_url σ);
                       app_header := get_headers σ |} k).
      split; [exact Hen|]. split.
      { rewrite Ht1, Ht0, Hu. by rewrite (get_headers_ext σ σ0 Ha). }
      split; [exact Hh1|]. split; [congruence|].
      right. exists k. auto. }
  rewrite Hen. simpl. exists conn.
  destruct (ws_connected σ1); simpl.
  - destruct (websocket_call_trace E l σ1) as (part & Ht & Hpart).
    exists part. split.
    { rewrite Ht, Ht1. by rewrite <- app_assoc. }
    split; [exact Hconn|]. by rewrite <- Hh1, <- Hto1.
  - exists []. rewrite app_nil_r. split; [exact Ht1|].
    split; [exact Hconn|]. auto.
Qed.

Lemma websocket_call_shape_witness :
  connection_type offline_state = "WebSocket"
  ∧ ∃ conn part,
      trace (snd (send_message opening_env 0 offline_state))
      = (trace offline_state ++ conn ++ part)%list.
Proof.
  assert (connection_type offline_state = "WebSocket") as H1 by reflexivity.
  split; [exact H1|].
  destruct (websocket_call_shape opening_env 0 offline_state H1)
    as (conn & part & Ht & _).
  exists conn, part. exact Ht.
Defined.

(** ** A call that has to connect first *)

(** A call on a client that is not connected, whose connection is
    reported open before the polling ends, goes on with the exchange over
    the connection just made: [ws] is the new [WebSocketApp] for the
    rewritten URL, and the call is the exchange started from the state
    the polling ended in. *)
Theorem websocket_connects_then_sends E l σ :
  connection_type σ = "WebSocket" →
  ws_connected σ = false →
  ws_connected (snd (ensure_connected E (snd (stamp E l σ)))) = true →
  ∃ (k : nat),
    (k ≤ 10)%nat
    ∧ ws (snd (ensure_connected E (snd (stamp E l σ))))
      = Some {| app_url := ws_url_of (server_url σ);
                app_header := get_headers σ |}
    ∧ trace (snd (ensure_connected E (snd (stamp E l σ))))
      = (trace σ ++ connect_effects
                      {| app_url := ws_url_of (server_url σ);
                         app_header := get_headers σ |} k)%list
    ∧ send_message E l σ
      = websocket_call E l (snd (ensure_connected E (snd (stamp E l σ)))).
Proof.
  intros Hct Hc Hopen.
  destruct (stamp_facts E l σ)
    as (σ0 & Hst & Hu & Ha & Hct0 & _ & _ & _ & _ & Hc0 & _ & _ & _ & _
        & Ht0 & _ & _).
  rewrite Hst in *. simpl in *.
  destruct (ensure_connected_facts E σ0)
    as (σ1 & k & Hen & Hk & _ & _ & _ & _ & _ & _ & _ & Hws1 & _ & _
        & Ht1 & _); [congruence|congruence|].
  rewrite Hen in *. simpl in *.
  exists k. split; [exact Hk|]. split.
  { rewrite Hws1, Hu. by rewrite (get_headers_ext σ σ0 Ha). }
  split.
  { rewrite Ht1, Ht0, Hu. by rewrite (get_headers_ext σ σ0 Ha). }
  unfold send_message. munfold. rewrite Hst. simpl.
  rewrite Hct0, Hct. simpl. unfold websocket_send. munfold.
  rewrite Hen. simpl. by rewrite Hopen.
Qed.

Lemma websocket_connects_then_sends_witness :
  connection_type offline_state = "WebSocket"
  ∧ ws_connected offline_state = false
  ∧ ws_connected (snd (ensure_connected opening_env
                         (snd (stamp opening_env 0 offline_state)))) = true
  ∧ fst (send_message opening_env 0 offline_state) = Ret sample_reply
  ∧ send_message opening_env 0 offline_state
    = websocket_call opening_env 0
        (snd (ensure_connected opening_env
                (snd (stamp opening_env 0 offline_state)))).
Proof.
  assert (connection_type offline_state = "WebSocket") as H1 by reflexivity.
  assert (ws_connected offline_state = false) as H2 by reflexivity.
  assert (ws_connected (snd (ensure_connected opening_env
                               (snd (stamp opening_env 0 offline_state))))
          = true) as H3 by reflexivity.
  split; [exact H1|]. split; [exact H2|]. split; [exact H3|].
  split; [by vm_compute|].
  destruct (websocket_connects_then_sends opening_env 0 offline_state
              H1 H2 H3) as (k & _ & _ & _ & Heq).
  exact Heq.
Defined.

(** ** Exceptions and the free-form command *)

Lemma send_message_raise_witness :
  fst (send_message closed_socket_env 0 online_state)
  = Raise (Exn WebSocketConnectionClosedException
             "Connection is already closed.")
  ∧ ((∃ k, ws_send closed_socket_env k
           = Some (Exn WebSocketConnectionClosedException
                     "Connection is already closed."))
     ∨ (∃ k, post closed_socket_env k
             = Raised (Exn WebSocketConnectionClosedException
                         "Connection is already closed.")
             ∧ is_RequestException
                 (Exn WebSocketConnectionClosedException
                    "Connection is already closed.") = false)
     ∨ exn_type (Exn WebSocketConnectionClosedException
                   "Connection is already closed.") = KeyError
     ∨ exn_type (Exn WebSocketConnectionClosedException
                   "Connection is already closed.") = TypeError
     ∨ exn_type (Exn WebSocketConnectionClosedException
                   "Connection is already closed.") = AttributeError
     ∨ (exn_type (Exn WebSocketConnectionClosedException
                    "Connection is already closed.") = OverflowError
        ∧ time_max < timeout online_state)
     ∨ ((exn_type (Exn WebSocketConnectionClosedException
                     "Connection is already closed.") = OverflowError
         ∨ exn_type (Exn WebSocketConnectionClosedException
                       "Connection is already closed.") = ValueError)
        ∧ ¬ 0 ≤ retry_delay online_state ≤ time_max)).
Proof.
  assert (fst (send_message closed_socket_env 0 online_state)
          = Raise (Exn WebSocketConnectionClosedException
                     "Connection is already closed.")) as H1
    by (by vm_compute).
  split; [exact H1|].
  exact (send_message_raise closed_socket_env 0 _ online_state H1).
Defined.

(** [custom_command] sends the caller's [data] as it is under the
    caller's name: it makes a new dictionary with the entries ["type"]:
    ["message"], ["name"]: the caller's name and ["data"]: the caller's
    data, hands it to [send_message] and returns what that returns; the
    dictionary gets its id from [send_message], and with that id it is
    the body of the first HTTP request, or the text of the frame of a
    connected WebSocket client. *)
Theorem custom_command_verbatim E command_name data :
  builds E (custom_command E command_name data) command_name data.
Proof. apply new_dict_builds. Qed.

Lemma custom_command_verbatim_witness :
  connection_type online_state = "WebSocket"
  ∧ ws_connected online_state = true
  ∧ is_Some (ws online_state)
  ∧ ∃ new rest,
      trace (snd (custom_command quiet_env "ping" (JInt 7) online_state))
      = (trace online_state ++ new)%list
      ∧ new = EWsSend
                (sample_dumps
                   (JDict [("type", JStr "message"); ("name", JStr "ping");
                           ("data", JInt 7); ("id", JStr "uuid-0")]))
                :: rest.
Proof.
  assert (connection_type online_state = "WebSocket") as H1 by reflexivity.
  assert (ws_connected online_state = true) as H2 by reflexivity.
  assert (is_Some (ws online_state)) as H3 by (by eexists).
  split; [exact H1|]. split; [exact H2|]. split; [exact H3|].
  destruct (custom_command_verbatim quiet_env "ping" (JInt 7) online_state)
    as (_ & _ & _ & new & Ht & _ & _ & Hws).
  destruct (Hws H1 H2 H3) as (rest & Hnew).
  exists new, rest. split; [exact Ht | exact Hnew].
Defined.

(** ** The URL of the WebSocket *)

Lemma prefix_append t s : String.prefix t (t +:+ s) = true.
Proof.
  induction t as [|c t IH].
  - change ("" +:+ s) with s. by destruct s.
  - change (String c t +:+ s) with (String c (t +:+ s)).
    cbn [String.prefix]. destruct (Ascii.ascii_dec c c); [exact IH | done].
Qed.

Lemma replace_from_skip t old new s :
  replace_from (String.length t) old new (t +:+ s)
  = replace_from O old new s.
Proof.
  induction t as [|c t IH]; [reflexivity|].
  change (replace_from (S (String.length t)) old new (String c (t +:+ s))
          = replace_from O old new s).
  cbn [replace_from]. exact IH.
Qed.

(** An occurrence at the head is replaced and the rest is treated in the
    same way. *)
Lemma str_replace_head old new s :
  old ≠ "" →
  str_replace old new (old +:+ s) = new +:+ str_replace old new s.
Proof.
  intros Hold. destruct old as [|c old]; [done|].
  unfold str_replace.
  pose proof (prefix_append (String c old) s) as Hp.
  change (String c old +:+ s) with (String c (old +:+ s)) in *.
  cbn [replace_from]. rewrite Hp.
  change (Nat.pred (String.length (String c old))) with (String.length old).
  f_equal. apply replace_from_skip.
Qed.

(** A text without an occurrence is left as it is. *)
Lemma str_replace_absent old new s :
  occurs old s = false → str_replace old new s = s.
Proof.
  unfold str_replace. induction s as [|c s IH]; intros Hocc;
    [reflexivity|].
  cbn [occurs] in Hocc. apply orb_false_iff in Hocc as [Hp Hs].
  cbn [replace_from]. rewrite Hp. f_equal. by apply IH.
Qed.

(** [connect_websocket] turns a leading [http://] into [ws://] and a
    leading [https://] into [wss://], and in doing so rewrites every
    later occurrence of the same scheme text in the URL too; a URL
    without such an occurrence after the scheme keeps its rest, and a URL
    with neither scheme is used as it is. *)
Theorem ws_url_of_rewrites :
  (∀ rest, ws_url_of ("http://" +:+ rest)
           = "ws://" +:+ str_replace "http://" "ws://" rest)
  ∧ (∀ rest, ws_url_of ("https://" +:+ rest)
             = "wss://" +:+ str_replace "https://" "wss://" rest)
  ∧ (∀ rest, occurs "http://" rest = false →
             ws_url_of ("http://" +:+ rest) = "ws://" +:+ rest)
  ∧ (∀ rest, occurs "https://" rest = false →
             ws_url_of ("https://" +:+ rest) = "wss://" +:+ rest)
  ∧ (∀ url, String.prefix "http://" url = false →
            String.prefix "https://" url = false →
            ws_url_of url = url).
Proof.
  assert (∀ rest, ws_url_of ("http://" +:+ rest)
                  = "ws://" +:+ str_replace "http://" "ws://" rest) as H1.
  { intros rest. unfold ws_url_of. rewrite prefix_append.
    by apply str_replace_head. }
  assert (∀ rest, ws_url_of ("https://" +:+ rest)
                  = "wss://" +:+ str_replace "https://" "wss://" rest) as H2.
  { intros rest. unfold ws_url_of. rewrite (prefix_append "https://").
    replace (String.prefix "http://" ("https://" +:+ rest)) with false
      by reflexivity.
    by apply str_replace_head. }
  split; [exact H1|]. split; [exact H2|]. split; [|split].
  - intros rest Hocc. by rewrite H1, str_replace_absent.
  - intros rest Hocc. by rewrite H2, str_replace_absent.
  - intros url Hp Hs. unfold ws_url_of. by rewrite Hp, Hs.
Qed.

Lemma ws_url_of_rewrites_witness :
  occurs "http://" "localhost:5678/api/mcp" = false
  ∧ ws_url_of "http://localhost:5678/api/mcp" = "ws://localhost:5678/api/mcp"
  ∧ ws_url_of "http://gate.example/?next=http://inner"
    = "ws://gate.example/?next=ws://inner".
Proof.
  assert (occurs "http://" "localhost:5678/api/mcp" = false) as H1
    by reflexivity.
  split; [exact H1|]. split.
  - exact (proj1 (proj2 (proj2 ws_url_of_rewrites))
             "localhost:5678/api/mcp" H1).
  - exact (proj1 ws_url_of_rewrites "gate.example/?next=http://inner").
Defined.

(** ** The connection state after a run of events *)

Lemma on_message_detached E message σ :
  detached_status (snd (on_message E message σ)) = detached_status σ.
Proof.
  unfold on_message, try_except, on_message_body, json_get_id,
    hash_or_raise, callback.
  munfold. cbn.
  destruct (json_loads E message) as [data|]; cbn; [|reflexivity].
  destruct data as [| b | n | t | items | fields]; cbn; try reflexivity.
  destruct (hash_key (default JNull (dict_get "id" fields))) as [k|]; cbn;
    [|reflexivity].
  destruct (message_callbacks σ !! k) as [cb|]; reflexivity.
Qed.

(** After any run of events of the WebSocket thread, [ws_connected] is
    the flag of the last open, error or close event (frames do not change
    it).  The status shown by the page is not changed by the run: the
    values that the callbacks assign to
    [st.session_state.connection_status], one per open, error or close
    event, do not reach the session of the page. *)
Theorem run_events_connection_state E evs σ :
  ws_connected (run_events E evs σ) = final_flag evs (ws_connected σ)
  ∧ connection_status (run_events E evs σ) = connection_status σ
  ∧ detached_status (run_events E evs σ)
    = (detached_status σ ++ status_writes evs)%list.
Proof.
  revert σ. induction evs as [|ev evs IH]; intros σ; simpl.
  { by rewrite app_nil_r. }
  destruct (IH (snd (dispatch E ev σ))) as (-> & -> & ->).
  destruct ev as [| error | code msg | message];
    try (split; [reflexivity|split; [reflexivity|]];
         exact (eq_sym (app_assoc (detached_status σ) [_]
                          (status_writes evs)))).
  change (dispatch E (WsMessage message) σ) with (on_message E message σ).
  rewrite on_message_detached.
  destruct (on_message_cases E message σ)
    as (σ' & -> & _ & Hc & Hs & _). cbn. by rewrite Hc, Hs.
Qed.

(** ** Reading a parameter schema *)

(** [parse_parameters_schema] on text.  Empty text and ["null"] give the
    empty dictionary without decoding.  Any other text is decoded: a
    decoded dictionary is returned, any other decoded value gives the
    empty dictionary, and so does text on which [json.loads] raises
    [JSONDecodeError].  But when [json.loads] raises something else (a
    [RecursionError] for text nested too deep, a plain [ValueError]),
    the [except] clause does not catch it and the helper raises it. *)
Theorem parse_parameters_schema_text E s σ :
  (s = "" ∨ s = "null" →
   parse_parameters_schema E (JStr s) σ = (Ret (JDict []), σ))
  ∧ (∀ schema, s ≠ "" → s ≠ "null" →
       json_loads E s = Some (JDict schema) →
       parse_parameters_schema E (JStr s) σ = (Ret (JDict schema), σ))
  ∧ (∀ v, s ≠ "" → s ≠ "null" →
       json_loads E s = Some v → is_dict v = false →
       parse_parameters_schema E (JStr s) σ = (Ret (JDict []), σ))
  ∧ (s ≠ "" → s ≠ "null" → json_loads E s = None →
     exn_type (json_failure E s) = JSONDecodeError →
     parse_parameters_schema E (JStr s) σ = (Ret (JDict []), σ))
  ∧ (s ≠ "" → s ≠ "null" → json_loads E s = None →
     exn_type (json_failure E s) ≠ JSONDecodeError →
     parse_parameters_schema E (JStr s) σ = (Raise (json_failure E s), σ)).
Proof.
  unfold parse_parameters_schema, try_except_decode, loads_value,
    is_JSONDecodeError.
  munfold. simpl.
  destruct (String.eqb_spec s "") as [->|Hne]; simpl.
  { repeat split; intros; congruence. }
  destruct (String.eqb_spec s "null") as [->|Hnn]; simpl.
  { repeat split; intros; congruence. }
  split; [by intros [?|?]|].
  destruct (json_loads E s) as [v|] eqn:Hl; simpl.
  - split; [|split; [|split]]; intros; simplify_eq; try reflexivity.
    match goal with H : is_dict _ = false |- _ => by rewrite H end.
  - split; [|split; [|split]]; intros; simplify_eq.
    + match goal with H : exn_type _ = _ |- _ => by rewrite H end.
    + by destruct (exn_type (json_failure E s)).
Qed.

Lemma parse_parameters_schema_text_witness :
  (brackets 2000 ≠ "" ∧ brackets 2000 ≠ "null"
   ∧ json_loads recursion_limit_env (brackets 2000) = None
   ∧ exn_type (json_failure recursion_limit_env (brackets 2000))
     ≠ JSONDecodeError
   ∧ fst (parse_parameters_schema recursion_limit_env
            (JStr (brackets 2000)) online_state)
     = Raise (Exn RecursionError
                "maximum recursion depth exceeded while decoding a JSON array from a unicode string"))
  ∧ (sample_dumps sample_reply ≠ "" ∧ sample_dumps sample_reply ≠ "null"
     ∧ parse_parameters_schema quiet_env (JStr (sample_dumps sample_reply))
         online_state
       = (Ret (JDict [("id", JStr "uuid-0");
                      ("response", JDict [("status", JStr "ok")])]),
          online_state)).
Proof.
  assert (brackets 2000 ≠ "") as H1 by (by vm_compute).
  assert (brackets 2000 ≠ "null") as H2 by (by vm_compute).
  assert (json_loads recursion_limit_env (brackets 2000) = None) as H3
    by (by vm_compute).
  assert (exn_type (json_failure recursion_limit_env (brackets 2000))
          ≠ JSONDecodeError) as H4 by (by vm_compute).
  assert (sample_dumps sample_reply ≠ "") as H5 by (by vm_compute).
  assert (sample_dumps sample_reply ≠ "null") as H6 by (by vm_compute).
  split.
  - split; [exact H1|]. split; [exact H2|]. split; [exact H3|].
    split; [exact H4|].
    destruct (parse_parameters_schema_text recursion_limit_env
                (brackets 2000) online_state) as (_ & _ & _ & _ & Hr).
    rewrite (Hr H1 H2 H3 H4). by vm_compute.
  - split; [exact H5|]. split; [exact H6|].
    destruct (parse_parameters_schema_text quiet_env
                (sample_dumps sample_reply) online_state)
      as (_ & Hd & _).
    apply Hd; [exact H5 | exact H6 | by vm_compute].
Defined.

(** On a value that is not text, [parse_parameters_schema] returns the
    empty dictionary when the value is falsy ([None], [False], [0], an
    empty list or dictionary) and otherwise raises [TypeError], which its
    [except] clause does not catch: a schema given as an object, not as
    text, is not returned but makes the helper fail. *)
Theorem parse_parameters_schema_not_text E v σ :
  (∀ s, v ≠ JStr s) →
  parse_parameters_schema E v σ
  = if truthy v
    then (Raise (Exn TypeError
                   "the JSON object must be str, bytes or bytearray"), σ)
    else (Ret (JDict []), σ).
Proof.
  intros Hv.
  unfold parse_parameters_schema, try_except_decode, loads_value. munfold.
  destruct v as [| b | n | s | items | fields]; simpl.
  - reflexivity.
  - by destruct b.
  - by destruct (n =? 0).
  - by destruct (Hv s).
  - by destruct items.
  - by destruct fields.
Qed.

Lemma parse_parameters_schema_not_text_witness :
  (∀ s, JDict [("properties", JDict [])] ≠ JStr s)
  ∧ parse_parameters_schema quiet_env (JDict [("properties", JDict [])])
      online_state
    = (Raise (Exn TypeError
                "the JSON object must be str, bytes or bytearray"),
       online_state).
Proof.
  assert (∀ s, JDict [("properties", JDict [])] ≠ JStr s) as H1 by done.
  split; [exact H1|].
  exact (parse_parameters_schema_not_text quiet_env _ online_state H1).
Defined.

(** ** The headers of a request *)

Lemma get_headers_authorization σ v :
  ("Authorization", v) ∈ get_headers σ
  ↔ ∃ k, api_key σ = Some k ∧ k ≠ "" ∧ v = "Bearer " +:+ k.
Proof.
  unfold get_headers. destruct (api_key σ) as [k|]; simpl.
  - destruct (String.eqb_spec k "") as [->|Hk]; simpl.
    + split.
      * intros H. apply list_elem_of_singleton in H. discriminate.
      * intros (k & [= <-] & Hk & _). done.
    + split.
      * intros H. apply elem_of_cons in H as [H|H]; [discriminate|].
        apply list_elem_of_singleton in H. injection H as ->.
        by exists k.
      * intros (k' & [= <-] & _ & ->). apply elem_of_cons. right.
        by apply list_elem_of_singleton.
  - split.
    + intros H. apply list_elem_of_singleton in H. discriminate.
    + intros (k & Hk & _). discriminate.
Qed.

(** Every request of an HTTP call is posted to [server_url] with the
    client's timeout and with the message as body; it has the header
    [Content-Type: application/json], and it has an [Authorization]
    header, which is [Bearer] followed by the key, exactly when [api_key]
    is a non-empty string. *)
Theorem http_requests_authorized E l σ :
  connection_type σ ≠ "WebSocket" →
  0 ≤ max_retries σ →
  ∃ new,
    trace (snd (send_message E l σ)) = (trace σ ++ new)%list
    ∧ ∀ url headers body seconds,
        EPost url headers body seconds ∈ new →
        url = server_url σ
        ∧ seconds = timeout σ
        ∧ body = JDict (heap (snd (send_message E l σ)) !!! l)
        ∧ ("Content-Type", "application/json") ∈ headers
        ∧ ∀ v, ("Authorization", v) ∈ headers
               ↔ ∃ k, api_key σ = Some k ∧ k ≠ "" ∧ v = "Bearer " +:+ k.
Proof.
  intros Hct Hr.
  destruct (send_message_sends E l σ)
    as (σ0' & Hst' & _ & _ & _ & _ & _ & _ & Hheap & _).
  destruct (stamp_facts E l σ)
    as (σ0 & Hst & Hu & Ha & _ & Hto & Hmr & _ & _ & _ & _ & _ & _ & _
        & Ht & _ & _).
  rewrite Hst in Hst'. injection Hst' as <-.
  rewrite Hheap. clear Hheap.
  rewrite (send_message_http E l σ σ0 Hct Hst).
  destruct (http_loop_bounded E l (Z.to_nat (max_retries σ0 + 1)) 0 σ0)
    as (new & Ht' & Hf & _); [lia|].
  exists new. split; [by rewrite Ht', Ht|].
  intros url headers body seconds Hin.
  rewrite Forall_forall in Hf. destruct (Hf _ Hin) as [Heq|Heq];
    [|discriminate].
  unfold post_effect in Heq. injection Heq as -> -> -> ->.
  split; [exact Hu|]. split; [exact Hto|]. split; [reflexivity|].
  rewrite (get_headers_ext σ σ0 Ha).
  split; [apply elem_of_cons; by left|].
  intros v. apply get_headers_authorization.
Qed.

Lemma http_requests_authorized_witness :
  connection_type keyed_state ≠ "WebSocket"
  ∧ 0 ≤ max_retries keyed_state
  ∧ ∃ new,
      trace (snd (send_message (answering_env sample_reply) 0 keyed_state))
      = (trace keyed_state ++ new)%list
      ∧ ∀ url headers body seconds,
          EPost url headers body seconds ∈ new →
          ("Authorization", "Bearer secret") ∈ headers.
Proof.
  assert (connection_type keyed_state ≠ "WebSocket") as H1 by done.
  assert (0 ≤ max_retries keyed_state) as H2 by (simpl; lia).
  split; [exact H1|]. split; [exact H2|].
  destruct (http_requests_authorized (answering_env sample_reply) 0
              keyed_state H1 H2) as (new & Ht & Hall).
  exists new. split; [exact Ht|].
  intros url headers body seconds Hin.
  destruct (Hall url headers body seconds Hin) as (_ & _ & _ & _ & Hauth).
  apply Hauth. exists "secret". by repeat split.
Defined.

(** ** A reply that arrives during the wait *)

(** A run of events in which the reply filed under [k] comes after frames
    for other calls and before events that are no frames: the callback
    registered under [k] (and only there) gets the reply, and its entry
    is deleted. *)
Lemma run_events_reply E before message data after σ k cb :
  message_callbacks σ !! k = Some cb →
  (∀ k', message_callbacks σ !! k' = Some cb → k' = k) →
  Forall (not_reply_to E k) before →
  json_loads E message = Some data →
  reply_key data = Some k →
  Forall not_message after →
  events (run_events E (before ++ WsMessage message :: after) σ) !! cb
  = Some data
  ∧ message_callbacks (run_events E (before ++ WsMessage message :: after) σ)
    !! k = None.
Proof.
  intros Hreg Honly Hbefore Hloads Hkey Hafter.
  unfold run_events. rewrite foldl_app. simpl.
  fold (run_events E before σ).
  destruct (run_events_other_replies E before σ k cb Hbefore Hreg Honly)
    as (Hreg1 & _ & _).
  destruct (dispatch_reply E message data k cb
              (run_events E before σ) Hloads Hkey Hreg1) as [Hev2 Hcb2].
  simpl in Hev2, Hcb2.
  match goal with |- context [foldl ?f ?s after] =>
    change (foldl f s after) with (run_events E after s);
    destruct (run_events_no_message E after s Hafter) as [Hcb3 Hev3]
  end.
  rewrite Hev3, Hcb3. simpl. rewrite Hev2, Hcb2.
  split; [apply lookup_insert_eq | apply lookup_delete_eq].
Qed.

(** On a connected client whose [timeout] is one that [wait] blocks for
    (positive, at most [time_max]): when the frames that arrive while
    the frame of the call is sent are for other calls, and the reply to
    the call arrives while the caller waits (after frames for other
    calls, before events that are no frames), then [send_message]
    returns that reply, and after the call its callback is no longer in
    the table.  [m] is the message as sent, with its id, and [k] the key
    of that id. *)
Theorem websocket_reply_during_wait E l σ m idv k app before message data
    after :
  connection_type σ = "WebSocket" →
  ws_connected σ = true →
  ws σ = Some app →
  heap (snd (stamp E l σ)) !! l = Some m →
  dict_get "id" m = Some idv →
  hash_key idv = Some k →
  (∀ k', message_callbacks σ !! k' ≠ Some (next_callback σ)) →
  events σ !! next_callback σ = None →
  0 < timeout σ ≤ time_max →
  ws_send E (clock (snd (stamp E l σ))) = None →
  Forall (not_reply_to E k) (background E (S (clock (snd (stamp E l σ))))) →
  background E (S (S (clock (snd (stamp E l σ)))))
  = (before ++ WsMessage message :: after)%list →
  Forall (not_reply_to E k) before →
  json_loads E message = Some data →
  reply_key data = Some k →
  Forall not_message after →
  ∃ σ', send_message E l σ = (Ret data, σ')
    ∧ message_callbacks σ' !! k = None
    ∧ trace σ' = (trace σ ++ [EWsSend (json_dumps E (JDict m));
                              EWait (timeout σ)])%list.
Proof.
  intros Hct Hc Hws Hl Hid Hk Hfresh Hunset Hrange Hsend Hsent Hbg Hbefore
    Hloads Hkey Hafter.
  destruct (stamp_facts E l σ)
    as (σ0 & Hst & _ & _ & _ & Hto & _ & _ & Hws0 & _ & Hcb0 & Hev0 & Hnc0
        & _ & Ht0 & _ & _).
  rewrite Hst in *. simpl in *.
  rewrite (send_message_online E l σ σ0 Hct Hc Hst).
  pose proof (lookup_total_correct _ _ _ Hl) as Hm.
  destruct (websocket_call_cases E l σ0)
    as [(e & σx & _ & _ & Hwhy & _)
       |[(e & σx & idv' & k' & _ & _ & _ & Hs & _)
        |(σs & idv' & k' & Hid' & Hk' & _ & _ & -> & _ & _ & _ & Htos & _ & _
          & _ & _ & Hevs & _ & Hts & Hcls & Hcbs)]].
  { rewrite Hm in Hwhy.
    destruct Hwhy as [Hn|[(idv' & Hi & Hn)|Hn]]; congruence. }
  { congruence. }
  rewrite Hm in Hid', Hts. assert (k' = k) as -> by congruence.
  destruct (run_events_other_replies E
              (background E (S (clock σ0))) σs k (next_callback σ0))
    as (Hreg & Hev & Honly).
  { exact Hsent. }
  { rewrite Hcbs. apply lookup_insert_eq. }
  { intros k' Hk''. rewrite Hcbs in Hk''.
    destruct (decide (k = k')) as [->|Hne]; [done|].
    rewrite lookup_insert_ne in Hk'' by done.
    rewrite Hcb0, Hnc0 in Hk''. by destruct (Hfresh k'). }
  match type of Hreg with context [run_events E ?evs ?s] =>
    destruct (run_events_untouched E evs s)
      as [(_ & _ & _ & Htoa & _ & _ & _ & _ & _ & Hta & Hcla) _];
    remember (run_events E evs s) as σa eqn:Hσa; clear Hσa end.
  assert (events σa !! next_callback σ0 = None) as Heva
    by (rewrite Hev, Hevs, Hev0, Hnc0; exact Hunset).
  assert (timeout σa = timeout σ) as Htoσ by congruence.
  rewrite (await_reply_blocks E _ σa Heva) by (rewrite Htoσ; exact Hrange).
  cbv zeta. rewrite Hcla, Hcls, Hbg.
  match goal with |- context [run_events E ?evs ?s] =>
    destruct (run_events_reply E before message data after s k
                (next_callback σ0) Hreg Honly Hbefore Hloads Hkey Hafter)
      as [Hdata Hgone];
    destruct (run_events_untouched E evs s)
      as [(_ & _ & _ & _ & _ & _ & _ & _ & _ & Htb & _) _];
    remember (run_events E evs s) as σb eqn:Hσb; clear Hσb end.
  cbn in Htb. rewrite Hdata.
  exists σb. split; [reflexivity|]. split; [exact Hgone|].
  rewrite Htb, Hta, Hts, Ht0, Htoσ. by rewrite <- app_assoc.
Qed.

Lemma websocket_reply_during_wait_witness :
  ∃ σ', send_message (late_reply_env sample_reply) 0 online_state
        = (Ret sample_reply, σ')
    ∧ message_callbacks σ' !! KStr "uuid-0" = None.
Proof.
  destruct (websocket_reply_during_wait (late_reply_env sample_reply) 0
              online_state
              (dict_set "id" (JStr "uuid-0") sample_message)
              (JStr "uuid-0") (KStr "uuid-0") sample_app
              [] (sample_dumps sample_reply) sample_reply [])
    as (σ' & Hr & Hgone & _); try reflexivity.
  - intros k'. unfold online_state, offline_state. simpl.
    rewrite lookup_empty. discriminate.
  - by vm_compute.
  - constructor.
  - constructor.
  - constructor.
  - exists σ'. split; [exact Hr | exact Hgone].
Defined.
